(** * ETH_Spread: the dashboard front end and the analytics formulas

    A shallow embedding of the TypeScript sources

    - [frontend/src/pages/AssetPage.tsx]   (formatting helpers, [shouldHighlight]),
    - [frontend/src/pages/Dashboard.tsx]   (formatting helpers, the stream listener),
    - [frontend/src/services/api.ts]       ([WebSocketService]),
    - the settings page                    ([handleChange], [handleSave]),

    together with the analytics formulas (fair value, profit, configuration
    store) that live in the Python back end.

    JavaScript numbers are modelled as exact rationals extended with [NaN]
    and the two infinities: rounding to binary64 is abstracted away, the
    comparison and propagation rules of the special values are kept. *)

From stdpp Require Import base strings gmap list pretty.
From Stdlib Require Import QArith Qround Qabs Lia.

Local Open Scope Q_scope.
Local Set Warnings "-register-all".

(** ** JavaScript values *)

Module JS.

Inductive number : Type :=
  | NaN
  | NegInfinity
  | Infinity
  | Fin (q : Q).

(** A property read from a parsed JSON object, as far as the pages look at
    it: absent ([undefined]), [null], or a number. *)
Inductive value : Type :=
  | Undefined
  | Null
  | Num (n : number).

(** [ToNumber] of ECMA-262 on those values. *)
Definition ToNumber (v : value) : number :=
  match v with
  | Undefined => NaN
  | Null => Fin 0
  | Num n => n
  end.

Definition Qltb (p q : Q) : bool :=
  match p ?= q with Lt => true | _ => false end.

(** [a < b] on numbers: false as soon as one side is [NaN]. *)
Definition num_lt (a b : number) : bool :=
  match a, b with
  | NaN, _ | _, NaN => false
  | _, NegInfinity => false
  | NegInfinity, _ => true
  | Infinity, _ => false
  | Fin _, Infinity => true
  | Fin p, Fin q => Qltb p q
  end.

(** [a === b] on numbers. *)
Definition num_eq (a b : number) : bool :=
  match a, b with
  | NegInfinity, NegInfinity => true
  | Infinity, Infinity => true
  | Fin p, Fin q => Qeq_bool p q
  | _, _ => false
  end.

Definition isNaN (a : number) : bool :=
  match a with NaN => true | _ => false end.

(** [a >= b]: [b < a] or equal, again false on [NaN]. *)
Definition num_ge (a b : number) : bool :=
  negb (isNaN a) && negb (isNaN b) && negb (num_lt a b).

(** The sign of a number, as its comparison with zero. *)
Definition num_sgn (a : number) : comparison :=
  match a with
  | NaN => Eq
  | NegInfinity => Lt
  | Infinity => Gt
  | Fin q => q ?= 0
  end.

(** [a * b], with [0 * Infinity = NaN]. *)
Definition num_mul (a b : number) : number :=
  match a, b with
  | NaN, _ | _, NaN => NaN
  | Fin p, Fin q => Fin (p * q)
  | _, _ =>
      match num_sgn a, num_sgn b with
      | Eq, _ | _, Eq => NaN
      | Lt, Lt | Gt, Gt => Infinity
      | _, _ => NegInfinity
      end
  end.

(** The relational operators applied to property values: both operands go
    through [ToNumber] (none of them is a string here). *)
Definition lt (a b : value) : bool := num_lt (ToNumber a) (ToNumber b).
Definition gt (a b : value) : bool := num_lt (ToNumber b) (ToNumber a).

(** [v !== undefined] *)
Definition not_undefined (v : value) : bool :=
  match v with Undefined => false | _ => true end.

(** [ToBoolean]: what [v ? a : b] tests. Zero and [NaN] are falsy. *)
Definition truthy (v : value) : bool :=
  match v with
  | Undefined | Null | Num NaN => false
  | Num (Fin q) => negb (Qeq_bool q 0)
  | Num _ => true
  end.

(** [v === undefined || v === null] *)
Definition nullish (v : value) : bool :=
  match v with Undefined | Null => true | Num _ => false end.

(** A parsed JSON document. *)
Inductive json : Type :=
  | JNull
  | JBool (b : bool)
  | JNumber (n : number)
  | JString (s : string)
  | JArray (items : list json)
  | JObject (members : list (string * json)).

(** [Array.isArray] with the array's elements. *)
Definition as_array (v : json) : option (list json) :=
  match v with JArray items => Some items | _ => None end.

(** [ToBoolean] of a parsed document: [null], [false], zero, [NaN] and the
    empty string are falsy, arrays and objects are truthy. *)
Definition json_truthy (v : json) : bool :=
  match v with
  | JNull => false
  | JBool b => b
  | JNumber NaN => false
  | JNumber (Fin q) => negb (Qeq_bool q 0)
  | JNumber _ => true
  | JString s => if decide (s = "") then false else true
  | JArray _ | JObject _ => true
  end.

(** [ToBoolean] of a [string | null] cell. *)
Definition text_truthy (t : option string) : bool :=
  match t with
  | None => false
  | Some s => if decide (s = "") then false else true
  end.

(** The built-in functions the pages call. They are part of the JavaScript
    run time, not of the repository, and stay abstract:
    [Number.prototype.toFixed], the global [parseFloat] and [JSON.parse]
    ([None] when it throws [SyntaxError]). *)
Class Builtins : Type := {
  toFixed : number -> nat -> string;
  parseFloat : string -> number;
  JSON_parse : string -> option json;
}.

(** Arithmetic whose rounding decides an outcome is kept apart: [times]
    is the product of two numbers as JavaScript computes it, rounded to
    the nearest binary64 number. It stays abstract like the built-ins. *)
Class Binary64 : Type := {
  times : number -> number -> number;
}.

(** The binary64 number that the literal [0.7] denotes,
    [0x3FE6666666666666] = 3152519739159347 / 2^52. *)
Definition double_0_7 : Q := 3152519739159347 # 4503599627370496.

End JS.

Import JS.

(** ** frontend/src/pages/AssetPage.tsx *)

Module AssetPage.
Section Page.
Context `{Builtins}.

(** [interface FutureData] of the types module: [p?: number] is a
    property that may be absent. *)
Record FutureData : Type := {
  symbol : string;
  mark_price : number;
  last_price : number;
  timestamp : number;
  delivery_time : value;
  days_until_expiration : value;
  spread_percent : value;
  fair_futures_price : value;
  fair_spread_percent : value;
  funding_rate_until_expiration : value;
  funding_rate_365days_until_expiration : value;
  net_profit_current_fr : value;
  net_profit_365days_fr : value;
  net_profit_usdt : value;
  return_on_capital : value;
  net_profit_usdt_365days : value;
  return_on_capital_365days : value;
  average_fr_days_used : value;
}.

Definition formatNumber (num : value) (decimals : nat) : string :=
  match num with
  | Undefined | Null => "N/A"
  | Num n => toFixed n decimals
  end.

(** The back end sends a decimal fraction (0.0001 = 0.01%): times 100. *)
Definition formatPercent (num : value) (decimals : nat) : string :=
  match num with
  | Undefined | Null => "N/A"
  | Num n =>
      let percentValue := num_mul n (Fin 100) in
      (if num_ge percentValue (Fin 0) then "" else "")
        +:+ toFixed percentValue decimals +:+ "%"
  end.

(** The number is a percentage already (3.89 = 3.89%): no scaling. *)
Definition formatPercentAlready (num : value) (decimals : nat) : string :=
  match num with
  | Undefined | Null => "N/A"
  | Num n =>
      (if num_ge n (Fin 0) then "" else "") +:+ toFixed n decimals +:+ "%"
  end.

Definition getColor (v : value) : string :=
  match v with
  | Undefined | Null => "#6b7280"
  | Num n =>
      if num_lt (Fin 0) n then "#10b981"
      else if num_lt n (Fin 0) then "#ef4444"
      else "#6b7280"
  end.

Definition shouldHighlight (future : FutureData) : bool :=
  not_undefined (spread_percent future)
  && not_undefined (funding_rate_until_expiration future)
  && not_undefined (fair_spread_percent future)
  && not_undefined (net_profit_current_fr future)
  && lt (spread_percent future) (funding_rate_until_expiration future)
  && lt (spread_percent future) (fair_spread_percent future)
  && gt (net_profit_current_fr future) (Num (Fin 0)).

(** The text of the cells of one table row (default [decimals] written
    out: 2 for [formatNumber] and [formatPercentAlready]). *)
Definition days_cell (future : FutureData) : string :=
  if truthy (days_until_expiration future)
  then formatNumber (days_until_expiration future) 1 +:+ " дней"
  else "N/A".

Definition mark_price_cell (future : FutureData) : string :=
  "$" +:+ formatNumber (Num (mark_price future)) 2.

Definition spread_cell (future : FutureData) : string :=
  formatPercentAlready (spread_percent future) 2.

Definition fair_spread_cell (future : FutureData) : string :=
  formatPercentAlready (fair_spread_percent future) 2.

Definition funding_cell (future : FutureData) : string :=
  formatPercentAlready (funding_rate_until_expiration future) 2.

Definition funding_365days_cell (future : FutureData) : string :=
  formatPercentAlready (funding_rate_365days_until_expiration future) 2.

Definition usdt_suffix (usdt : value) : string :=
  if not_undefined usdt then " ($" +:+ formatNumber usdt 2 +:+ ")" else "".

Definition net_profit_cell (future : FutureData) : string :=
  formatPercentAlready (net_profit_current_fr future) 2
    +:+ usdt_suffix (net_profit_usdt future).

Definition net_profit_365days_cell (future : FutureData) : string :=
  formatPercentAlready (net_profit_365days_fr future) 2
    +:+ usdt_suffix (net_profit_usdt_365days future).

Definition roc_text (roc : value) : string :=
  if not_undefined roc then formatNumber roc 2 +:+ "%" else "N/A".

Definition return_on_capital_cell (future : FutureData) : string :=
  roc_text (return_on_capital future).

Definition return_on_capital_365days_cell (future : FutureData) : string :=
  roc_text (return_on_capital_365days future).

(** The cards above the table show the perpetual's funding rates, which
    are decimal fractions. *)
Definition funding_rate_card (current_funding_rate : value) : string :=
  formatPercent current_funding_rate 4.

End Page.
End AssetPage.

(** *** The data effect of [AssetPage]

    [useEffect] starts a new instance whenever the route's [symbol]
    changes: the previous instance's clean-up sets its [isMounted] to
    false and stops its interval, the new one polls every second. *)

Module AssetLoader.

Record State : Type := {
  symbol : option string;     (* useParams().symbol *)
  data : json;                (* InstrumentFullData | null *)
  config : json;              (* Config | null *)
  loading : bool;
  error : option string;
  lastUpdate : option nat;
  updateCount : nat;
  isUpdating : bool;
  live : option nat;          (* the instance whose isMounted is true *)
  effects : nat;              (* instances started so far *)
}.

Definition initial (sym : option string) : State :=
  {| symbol := sym; data := JNull; config := JNull; loading := true;
     error := None; lastUpdate := None; updateCount := 0;
     isUpdating := false; live := None; effects := 0 |}.

(** [symbol || 'ETH'] *)
Definition currentSymbol (st : State) : string :=
  match symbol st with
  | Some s => if decide (s = "") then "ETH" else s
  | None => "ETH"
  end.

(** [api.getInstrumentFullData(currentSymbol)]: the path requested. *)
Definition loadData_request (st : State) : string :=
  "/api/instruments/" +:+ currentSymbol st.

(** [loadData] up to its [await]: [setIsUpdating(true)]. *)
Definition loadData_start (st : State) : State :=
  {| symbol := symbol st; data := data st; config := config st;
     loading := loading st; error := error st; lastUpdate := lastUpdate st;
     updateCount := updateCount st; isUpdating := true;
     live := live st; effects := effects st |}.

(** [loadData] after the [await], for a call made by instance [g]:
    [Some d] when the request resolved with body [d], [None] when it
    threw. Every [setState] is guarded by that instance's [isMounted]. *)
Definition loadData_settled (now g : nat) (response : option json) (st : State)
  : State :=
  if decide (live st = Some g) then
    match response with
    | Some d =>
        {| symbol := symbol st; data := d; config := config st;
           loading := false; error := None; lastUpdate := Some now;
           updateCount := S (updateCount st); isUpdating := false;
           live := live st; effects := effects st |}
    | None =>
        {| symbol := symbol st; data := data st; config := config st;
           loading := false; error := Some "Ошибка загрузки данных";
           lastUpdate := lastUpdate st; updateCount := updateCount st;
           isUpdating := false; live := live st; effects := effects st |}
    end
  else st.

(** [loadConfig] once [api.getConfig()] has settled; a failure only
    writes to the console. *)
Definition loadConfig_settled (response : option json) (st : State) : State :=
  match response with
  | Some c =>
      {| symbol := symbol st; data := data st; config := c;
         loading := loading st; error := error st; lastUpdate := lastUpdate st;
         updateCount := updateCount st; isUpdating := isUpdating st;
         live := live st; effects := effects st |}
  | None => st
  end.

(** The clean-up of the running instance. *)
Definition cleanup (st : State) : State :=
  {| symbol := symbol st; data := data st; config := config st;
     loading := loading st; error := error st; lastUpdate := lastUpdate st;
     updateCount := updateCount st; isUpdating := isUpdating st;
     live := None; effects := effects st |}.

(** The effect for route parameter [sym], after the clean-up of the
    instance before it: reset [loading] and [error], first [loadData]. *)
Definition effect (sym : option string) (st : State) : State :=
  {| symbol := sym; data := data st; config := config st;
     loading := true; error := None; lastUpdate := lastUpdate st;
     updateCount := updateCount st; isUpdating := true;
     live := Some (effects st); effects := S (effects st) |}.

(** The interval of the running instance fires: another [loadData]. *)
Definition tick (st : State) : State :=
  match live st with
  | Some _ => loadData_start st
  | None => st
  end.

Inductive event : Type :=
  | Effect (sym : option string)       (* mount, or the symbol changed *)
  | Tick
  | Settled (now g : nat) (response : option json)
  | ConfigSettled (response : option json)
  | Cleanup.                           (* unmount *)

Definition step (ev : event) (st : State) : State :=
  match ev with
  | Effect sym => effect sym st
  | Tick => tick st
  | Settled now g response => loadData_settled now g response st
  | ConfigSettled response => loadConfig_settled response st
  | Cleanup => cleanup st
  end.

Definition run (evs : list event) (st : State) : State :=
  foldl (fun st ev => step ev st) st evs.

(** The markup of the page. Building it reads [data.perpetual.symbol],
    maps over [data.futures] and formats their properties, which throws
    [TypeError] on a body without these ([None]); what is built otherwise
    is left open. *)
Class PageMarkup : Type := {
  page_markup : State -> option string;
}.

(** What the component returns: the spinner, the error alert, or the
    page built from the state, unless building it throws. *)
Inductive view : Type :=
  | Spinner
  | Alert (text : string)
  | Page (markup : string)
  | Throws.

Definition page `{PageMarkup} (st : State) : view :=
  match page_markup st with
  | Some markup => Page markup
  | None => Throws
  end.

Definition render `{PageMarkup} (st : State) : view :=
  if loading st then Spinner
  else if text_truthy (error st) || negb (json_truthy (data st)) then
    Alert (match error st with
           | Some e => if decide (e = "") then "Данные не найдены" else e
           | None => "Данные не найдены"
           end)
  else page st.

(** Instance numbers handed out so far are below the counter. *)
Definition live_bounded (st : State) : Prop :=
  forall g, live st = Some g -> (g < effects st)%nat.

(** The only error text the effect ever stores. *)
Definition error_known (st : State) : Prop :=
  error st = None \/ error st = Some "Ошибка загрузки данных".

(** Not loading any more means an answer was applied: a failure left its
    error, or a success was counted. *)
Definition settled_once (st : State) : Prop :=
  loading st = false -> error st <> None \/ (0 < updateCount st)%nat.

End AssetLoader.

(** ** frontend/src/pages/Dashboard.tsx *)

Module Dashboard.
Section Page.
Context `{Builtins}.

(** [interface InstrumentData] of the types module. *)
Record InstrumentData : Type := {
  symbol : string;
  perpetual_symbol : string;
  futures_symbol : string;
  perpetual_price : number;
  futures_price : number;
  spread_percent : number;
  funding_rate : number;
  avg_funding_rate : number;
  days_until_expiration : number;
  net_profit_percent : number;
  return_on_capital : number;
  timestamp : string;
}.

Definition formatNumber (num : number) (decimals : nat) : string :=
  toFixed num decimals.

Definition formatPercent (num : number) : string :=
  (if num_ge num (Fin 0) then "+" else "") +:+ toFixed num 2 +:+ "%".

Inductive chip_color : Type := success | warning | error_color | default.

Definition getSpreadColor (spread : number) : chip_color :=
  if num_lt spread (Fin (-1 # 2)) then error_color
  else if num_lt spread (Fin 0) then warning
  else success.

Context `{Binary64}.

(** [threshold * 0.7] is the rounded product with the double [0.7]. *)
Definition getROCColor (roc threshold : number) : chip_color :=
  if num_lt threshold roc then success
  else if num_lt (times threshold (Fin double_0_7)) roc then warning
  else default.

(** The text of the cells of one table row. *)
Definition spread_cell (instrument : InstrumentData) : string :=
  formatPercent (spread_percent instrument).

Definition funding_rate_cell (instrument : InstrumentData) : string :=
  formatPercent (num_mul (funding_rate instrument) (Fin 100)).

Definition avg_funding_rate_cell (instrument : InstrumentData) : string :=
  formatPercent (num_mul (avg_funding_rate instrument) (Fin 100)).

Definition net_profit_cell (instrument : InstrumentData) : string :=
  formatPercent (net_profit_percent instrument).

Definition return_on_capital_cell (instrument : InstrumentData) : string :=
  formatPercent (return_on_capital instrument).

End Page.

(** The component's [useState] cells. The annotation [InstrumentData[]]
    is erased at run time: [instruments] holds whatever array was stored. *)
Record State : Type := {
  instruments : list json;
  loading : bool;
  error : option string;
  lastUpdate : option nat;
}.

Definition initial : State :=
  {| instruments := []; loading := true; error := None; lastUpdate := None |}.

(** The callback handed to [wsService.subscribe]; [now] is what
    [new Date()] reads. The [else] branch only writes to the console. *)
Definition listener (now : nat) (data : json) (st : State) : State :=
  match as_array data with
  | Some items =>
      {| instruments := items; loading := loading st;
         error := None; lastUpdate := Some now |}
  | None => st
  end.

(** [loadData] once [api.getInstruments()] has settled: [Some data] when
    the request resolved, [None] when it threw. *)
Definition loadData (now : nat) (response : option json) (st : State) : State :=
  match response with
  | Some data =>
      match as_array data with
      | Some items =>
          {| instruments := items; loading := false;
             error := error st; lastUpdate := Some now |}
      | None =>
          {| instruments := instruments st; loading := false;
             error := Some "Получены некорректные данные с сервера";
             lastUpdate := lastUpdate st |}
      end
  | None =>
      {| instruments := instruments st; loading := false;
         error := Some "Ошибка загрузки данных";
         lastUpdate := lastUpdate st |}
  end.

(** The markup of one table row. Building it reads the properties of the
    row and calls [toFixed] on them, which throws [TypeError] on a row
    that is [null] or lacks a number ([None]); what is built otherwise is
    left open. Each row is built from that row alone. *)
Class RowMarkup : Type := {
  row_markup : json -> option string;
}.

(** What the component returns: the spinner while [loading], the alert
    when [error] is set, otherwise the table, one row per instrument
    (with a note when there is none), unless building a row throws. *)
Inductive view : Type :=
  | Spinner
  | Alert (text : string)
  | Table (rows : list string) (no_data_note : bool)
  | Throws.

(** [instruments.map(...)] and the note [instruments.length === 0 && ...]. *)
Definition table `{RowMarkup} (rows : list json) : view :=
  match mapM row_markup rows with
  | Some built => Table built (bool_decide (length rows = 0%nat))
  | None => Throws
  end.

Definition render `{RowMarkup} (st : State) : view :=
  if loading st then Spinner
  else if text_truthy (error st) then
    Alert (match error st with Some e => e | None => "" end)
  else table (instruments st).

End Dashboard.

(** ** frontend/src/services/api.ts: [WebSocketService]

    The service lives in a browser: the sockets it creates and the timers it
    arms are the browser's, and the browser calls the handlers back. The
    state below holds the three private fields of the class, the browser's
    sockets and pending timers, the console, and the state the subscribed
    callbacks act on. *)

Module Api.

Inductive ReadyState : Type := CONNECTING | OPEN | CLOSING | CLOSED.

(** A [WebSocket] object made by [connect]. Its four handlers are the
    closures [connect] assigns; [onclose] captures [endpoint]. *)
Record Socket : Type := {
  endpoint : string;
  readyState : ReadyState;
}.

(** How a call ends: normally, or by a thrown exception (either way with
    the effects made so far). *)
Inductive completion (A : Type) : Type :=
  | Normal (a : A)
  | Throw (a : A).
Arguments Normal {A} a.
Arguments Throw {A} a.

(** The state a call leaves behind, however it ended. *)
Definition outcome {A} (c : completion A) : A :=
  match c with Normal a | Throw a => a end.

Definition try_catch {A} (body : completion A) (handler : A -> completion A)
  : completion A :=
  match body with
  | Normal a => Normal a
  | Throw a => handler a
  end.

Section Service.
Context `{Builtins}.

(** State of the subscribers, and what calling listener [l] with [data]
    does to it. Listeners are identified by a number (the identity of the
    function object). *)
Context {Subs : Type}.
Variable call : nat -> json -> Subs -> completion Subs.

Record World : Type := {
  ws : option nat;                   (* this.ws: index into [sockets] *)
  reconnectTimeout : option nat;     (* this.reconnectTimeout: a timer id *)
  listeners : list nat;              (* this.listeners, in insertion order *)
  sockets : list Socket;             (* every WebSocket created so far *)
  timers : list (nat * string);      (* pending setTimeout: id, endpoint *)
  next_timer : nat;
  console : list string;
  subscribers : Subs;
}.

Definition initial (s : Subs) : World :=
  {| ws := None; reconnectTimeout := None; listeners := [];
     sockets := []; timers := []; next_timer := 1;
     console := []; subscribers := s |}.

Definition set_ws (v : option nat) (w : World) : World :=
  {| ws := v; reconnectTimeout := reconnectTimeout w;
     listeners := listeners w; sockets := sockets w; timers := timers w;
     next_timer := next_timer w; console := console w;
     subscribers := subscribers w |}.

Definition set_reconnectTimeout (v : option nat) (w : World) : World :=
  {| ws := ws w; reconnectTimeout := v;
     listeners := listeners w; sockets := sockets w; timers := timers w;
     next_timer := next_timer w; console := console w;
     subscribers := subscribers w |}.

Definition set_listeners (v : list nat) (w : World) : World :=
  {| ws := ws w; reconnectTimeout := reconnectTimeout w;
     listeners := v; sockets := sockets w; timers := timers w;
     next_timer := next_timer w; console := console w;
     subscribers := subscribers w |}.

Definition set_sockets (v : list Socket) (w : World) : World :=
  {| ws := ws w; reconnectTimeout := reconnectTimeout w;
     listeners := listeners w; sockets := v; timers := timers w;
     next_timer := next_timer w; console := console w;
     subscribers := subscribers w |}.

Definition set_timers (v : list (nat * string)) (n : nat) (w : World) : World :=
  {| ws := ws w; reconnectTimeout := reconnectTimeout w;
     listeners := listeners w; sockets := sockets w; timers := v;
     next_timer := n; console := console w;
     subscribers := subscribers w |}.

Definition set_subscribers (v : Subs) (w : World) : World :=
  {| ws := ws w; reconnectTimeout := reconnectTimeout w;
     listeners := listeners w; sockets := sockets w; timers := timers w;
     next_timer := next_timer w; console := console w;
     subscribers := v |}.

Definition console_log (msg : string) (w : World) : World :=
  {| ws := ws w; reconnectTimeout := reconnectTimeout w;
     listeners := listeners w; sockets := sockets w; timers := timers w;
     next_timer := next_timer w; console := console w ++ [msg];
     subscribers := subscribers w |}.

(** *** Browser primitives *)

(** [new WebSocket(url)]: a fresh socket, still connecting. *)
Definition new_WebSocket (ep : string) (w : World) : nat * World :=
  (length (sockets w),
   set_sockets (sockets w ++ [{| endpoint := ep; readyState := CONNECTING |}]) w).

Definition set_readyState (i : nat) (r : ReadyState) (w : World) : World :=
  set_sockets
    (alter (fun s => {| endpoint := endpoint s; readyState := r |}) i (sockets w))
    w.

(** [socket.close()]: starts the closing handshake unless the socket is
    closing or closed already. *)
Definition WebSocket_close (i : nat) (w : World) : World :=
  match sockets w !! i with
  | Some {| readyState := CONNECTING |} | Some {| readyState := OPEN |} =>
      set_readyState i CLOSING w
  | _ => w
  end.

(** [setTimeout(() => this.connect(endpoint), 3000)] *)
Definition setTimeout (ep : string) (w : World) : nat * World :=
  (next_timer w, set_timers (timers w ++ [(next_timer w, ep)]) (S (next_timer w)) w).

Definition clearTimeout (t : nat) (w : World) : World :=
  set_timers (filter (fun p => p.1 ≠ t) (timers w)) (next_timer w) w.

(** *** Methods of the class *)

Definition connect (ep : string) (w : World) : World :=
  let '(i, w) := new_WebSocket ep w in
  set_ws (Some i) w.

Definition disconnect (w : World) : World :=
  let w :=
    match reconnectTimeout w with
    | Some t => set_reconnectTimeout None (clearTimeout t w)
    | None => w
    end in
  match ws w with
  | Some i => set_ws None (WebSocket_close i w)
  | None => w
  end.

(** [this.listeners.add(listener)]: a [Set] keeps one copy, in place. *)
Definition subscribe (l : nat) (w : World) : World :=
  if decide (l ∈ listeners w) then w
  else set_listeners (listeners w ++ [l]) w.

(** The closure [subscribe] returns: [this.listeners.delete(listener)]. *)
Definition unsubscribe (l : nat) (w : World) : World :=
  set_listeners (filter (fun x => x ≠ l) (listeners w)) w.

(** *** The handlers [connect] installs on the socket *)

Definition onopen (w : World) : World :=
  let w := console_log "WebSocket connected" w in
  match reconnectTimeout w with
  | Some t => set_reconnectTimeout None (clearTimeout t w)
  | None => w
  end.

(** [this.listeners.forEach(listener => listener(data))]: stops at the
    first listener that throws. *)
Fixpoint forEach (ls : list nat) (data : json) (s : Subs) : completion Subs :=
  match ls with
  | [] => Normal s
  | l :: ls =>
      match call l data s with
      | Normal s => forEach ls data s
      | Throw s => Throw s
      end
  end.

(** The [try] block of [onmessage]. *)
Definition onmessage_try (event_data : string) (w : World) : completion World :=
  match JSON_parse event_data with
  | None => Throw w
  | Some data =>
      match forEach (listeners w) data (subscribers w) with
      | Normal s => Normal (set_subscribers s w)
      | Throw s => Throw (set_subscribers s w)
      end
  end.

Definition onmessage (event_data : string) (w : World) : completion World :=
  try_catch (onmessage_try event_data w)
    (fun w => Normal (console_log "Error parsing WebSocket message:" w)).

Definition onerror (w : World) : World :=
  console_log "WebSocket error:" w.

Definition onclose (ep : string) (w : World) : World :=
  let w := console_log "WebSocket disconnected, reconnecting..." w in
  let '(t, w) := setTimeout ep w in
  set_reconnectTimeout (Some t) w.

(** *** What can happen: calls from the pages, events from the browser *)

Inductive step : Type :=
  | Connect (ep : string)
  | Disconnect
  | Subscribe (l : nat)
  | Unsubscribe (l : nat)
  | OpenEvent (i : nat)               (* socket [i] is established *)
  | MessageEvent (i : nat) (data : string)
  | ErrorEvent (i : nat)
  | CloseEvent (i : nat)              (* socket [i] is closed *)
  | TimerEvent (t : nat).             (* timer [t] expires *)

(** One step; [None] when the browser cannot raise that event in [w]
    (no such socket or timer, or the socket is in the wrong state). An
    exception that leaves a handler is reported by the browser and the
    state stays as the handler left it. *)
Definition exec (st : step) (w : World) : option World :=
  match st with
  | Connect ep => Some (connect ep w)
  | Disconnect => Some (disconnect w)
  | Subscribe l => Some (subscribe l w)
  | Unsubscribe l => Some (unsubscribe l w)
  | OpenEvent i =>
      match sockets w !! i with
      | Some {| readyState := CONNECTING |} => Some (onopen (set_readyState i OPEN w))
      | _ => None
      end
  | MessageEvent i data =>
      match sockets w !! i with
      | Some {| readyState := OPEN |} =>
          Some (outcome (onmessage data w))
      | _ => None
      end
  | ErrorEvent i =>
      match sockets w !! i with
      | Some {| readyState := CLOSED |} | None => None
      | Some _ => Some (onerror w)
      end
  | CloseEvent i =>
      match sockets w !! i with
      | Some {| readyState := CLOSED |} | None => None
      | Some s => Some (onclose (endpoint s) (set_readyState i CLOSED w))
      end
  | TimerEvent t =>
      match list_find (fun p => p.1 = t) (timers w) with
      | Some (_, (_, ep)) => Some (connect ep (clearTimeout t w))
      | None => None
      end
  end.

Fixpoint run (sts : list step) (w : World) : option World :=
  match sts with
  | [] => Some w
  | st :: sts =>
      match exec st w with
      | Some w => run sts w
      | None => None
      end
  end.

End Service.

Arguments World : clear implicits.
Arguments initial {Subs} s.

(** Listeners that do nothing but write down who was called with what:
    the subscribers' state is the list of the calls made so far. *)
Definition recording (l : nat) (data : json) (log : list (nat * json))
  : completion (list (nat * json)) :=
  Normal (log ++ [(l, data)]).

(** Recording listeners of which one, [bad], throws when called. *)
Definition throwing (bad : nat) (l : nat) (data : json) (log : list (nat * json))
  : completion (list (nat * json)) :=
  if decide (l = bad) then Throw log else Normal (log ++ [(l, data)]).

(** The steps that are the browser's doing. *)
Definition browser_event (st : step) : bool :=
  match st with
  | OpenEvent _ | MessageEvent _ _ | ErrorEvent _ | CloseEvent _
  | TimerEvent _ => true
  | Connect _ | Disconnect | Subscribe _ | Unsubscribe _ => false
  end.

(** The steps that subscribe or unsubscribe. *)
Definition registry_step (st : step) : bool :=
  match st with
  | Subscribe _ | Unsubscribe _ => true
  | _ => false
  end.

(** Pending timers carry identifiers the browser has handed out. *)
Definition timers_bounded {Subs} (w : World Subs) : Prop :=
  Forall (fun p => (p.1 < next_timer w)%nat) (timers w).

(** Every socket made so far is closed. *)
Definition all_closed {Subs} (w : World Subs) : Prop :=
  Forall (fun s => readyState s = CLOSED) (sockets w).

End Api.

(** ** The dashboard as the stream's subscriber

    Each mounted [Dashboard] component subscribes one callback; component
    number [l] owns listener number [l]. *)

Module App.
Section App.
Context `{Builtins}.

Record Pages : Type := {
  now : nat;                                  (* what [new Date()] reads *)
  mounted : gmap nat Dashboard.State;
}.

(** Calling the callback of component [l]: its [setState] calls; nothing
    happens to a component that is gone, and the callback never throws. *)
Definition call (l : nat) (data : json) (s : Pages) : Api.completion Pages :=
  Api.Normal
    {| now := now s;
       mounted := alter (Dashboard.listener (now s) data) l (mounted s) |}.

Definition World : Type := Api.World Pages.

Definition page (l : nat) (w : World) : option Dashboard.State :=
  mounted (Api.subscribers w) !! l.

Definition onmessage : string -> World -> Api.completion World :=
  Api.onmessage call.

Definition exec : Api.step -> World -> option World := Api.exec call.
Definition run : list Api.step -> World -> option World := Api.run call.

(** The effect of [useEffect] in [Dashboard]: connect, then subscribe. *)
Definition mount (l : nat) (w : World) : World :=
  let s := Api.subscribers w in
  let w :=
    Api.set_subscribers
      {| now := now s; mounted := <[l := Dashboard.initial]> (mounted s) |} w in
  Api.subscribe l (Api.connect "/ws/instruments" w).

(** Its clean-up, [unsubscribe(); wsService.disconnect()], after which
    the component and its state are gone. *)
Definition unmount (l : nat) (w : World) : World :=
  let w := Api.disconnect (Api.unsubscribe l w) in
  let s := Api.subscribers w in
  Api.set_subscribers {| now := now s; mounted := delete l (mounted s) |} w.

End App.
End App.

(** ** The settings page ([Settings], with [api.updateConfig]) *)

Module Settings.
Section Page.
Context `{Builtins}.

(** A [Config] object as it sits in the component: property name to value.
    [interface Config] declares seven numbers and [perpetual_symbol], but
    nothing checks the property types at run time. *)
Definition Config : Type := gmap string json.

Inductive severity : Type := success | error.

Record State : Type := {
  config : option Config;
  loading : bool;
  saving : bool;
  message : option (severity * string);
}.

Definition set_config (c : option Config) (st : State) : State :=
  {| config := c; loading := loading st;
     saving := saving st; message := message st |}.

(** [setConfig({...config, [field]: isNaN(numValue) ? value : numValue})] *)
Definition handleChange (field : string) (value : string) (st : State) : State :=
  match config st with
  | None => st
  | Some c =>
      let numValue := parseFloat value in
      set_config
        (Some (<[field := if isNaN numValue then JString value
                           else JNumber numValue]> c))
        st
  end.

(** [api.updateConfig(config)]: the body of [PUT /api/config]. *)
Record Request : Type := {
  path : string;
  body : Config;
}.

Definition updateConfig (c : Config) : Request :=
  {| path := "/api/config"; body := c |}.

(** How the request settles: resolved with the server's [message], or
    rejected, with [err.response?.data?.message] when there is one. *)
Inductive Response : Type :=
  | Resolved (msg : string)
  | Rejected (msg : option string).

(** [a || b] on strings: the empty string is falsy. *)
Definition or_default (a : string) (b : string) : string :=
  if decide (a = "") then b else a.

(** [handleSave] up to its [await]: the request it sends, if any. *)
Definition handleSave_request (st : State) : option Request :=
  updateConfig <$> config st.

Definition handleSave_start (st : State) : State :=
  match config st with
  | None => st
  | Some _ =>
      {| config := config st; loading := loading st;
         saving := true; message := None |}
  end.

(** [handleSave] after the [await], [finally] included. *)
Definition handleSave_settled (r : Response) (st : State) : State :=
  let text :=
    match r with
    | Resolved msg => (success, or_default msg "Настройки успешно сохранены")
    | Rejected (Some msg) => (error, or_default msg "Ошибка сохранения настроек")
    | Rejected None => (error, "Ошибка сохранения настроек")
    end in
  {| config := config st; loading := loading st;
     saving := false; message := Some text |}.

(** [handleSave] as a whole, against a server that answers requests. *)
Definition handleSave (server : Request -> Response) (st : State) : State :=
  match handleSave_request st with
  | None => st
  | Some request => handleSave_settled (server request) (handleSave_start st)
  end.

(** The body [api.updateConfig] resolves with,
    [{ success: boolean; message: string }]. [handleSave] reads its
    [message] only. *)
Record Reply : Type := {
  reply_success : bool;
  reply_message : string;
}.

Definition resolved_with (r : Reply) : Response := Resolved (reply_message r).

(** [loadConfig] once [api.getConfig()] has settled. *)
Definition loadConfig (response : option Config) (st : State) : State :=
  match response with
  | Some data =>
      {| config := Some data; loading := false;
         saving := saving st; message := message st |}
  | None =>
      {| config := config st; loading := false; saving := saving st;
         message := Some (error, "Ошибка загрузки настроек") |}
  end.

End Page.
End Settings.

(** ** The analytics engine (Python back end)

    The engine's code is not part of the front-end sources; its formulas
    are taken from the design document. Quantities are exact rationals. *)

Module Engine.

(** Modelled from the spec: the funding intervals per day (8-hour funding),
    a fixed business constant of the ProfitCalculator. *)
Definition intervals_per_day : Q := 3.

(** Modelled from the spec: the commission of one leg, in percent; the
    same figure the asset page prints for each of the four trades. *)
Definition commission_leg : Q := 29 # 1000.

(** Modelled from the spec: the round-trip commission [C], four legs. *)
Definition commission : Q := 4 * commission_leg.

(** Modelled from the spec: FairValueModel, simple cost of carry,
    [fair_price = P * (1 + r * d/365)]. *)
Definition fair_price (P r d : Q) : Q := P * (1 + r * d / 365).

(** Modelled from the spec: FairValueModel,
    [fair_spread_pct = (fair_price - P) / P * 100]. *)
Definition fair_spread_pct (P r d : Q) : Q := (fair_price P r d - P) / P * 100.

(** Modelled from the spec: the spread convention of the data model,
    [(future_price - perpetual_price) / perpetual_price * 100]. *)
Definition spread_pct (perpetual_price future_price : Q) : Q :=
  (future_price - perpetual_price) / perpetual_price * 100.

(** Modelled from the spec: ProfitCalculator, the funding collected until
    expiration. The average [fr] is a decimal fraction per interval and the
    result is a percentage over the full life; the conversion factor 100 is
    the one the end-to-end scenario writes out ([0.0001*3*30*100 = 0.9]).
    A missing average ([None]) leaves the metric unavailable. *)
Definition funding_rate_until_expiration (fr : option Q) (d : Q) : option Q :=
  (fun x => x * intervals_per_day * d * 100) <$> fr.

(** Modelled from the spec: ProfitCalculator,
    [net_profit = funding - spread_pct - C], unavailable without funding. *)
Definition net_profit (funding : option Q) (spread : Q) : option Q :=
  (fun x => x - spread - commission) <$> funding.

(** Modelled from the spec: ProfitCalculator,
    [return_on_capital = net_profit * (365 / d)], omitted when [d == 0]. *)
Definition return_on_capital (profit : option Q) (d : Q) : option Q :=
  if Qeq_bool d 0 then None else (fun x => x * (365 / d)) <$> profit.

(** Modelled from the spec: ProfitCalculator,
    [net_profit_usdt = net_profit / 100 * capital_usdt]. *)
Definition net_profit_usdt (profit : option Q) (capital_usdt : Q) : option Q :=
  (fun x => x / 100 * capital_usdt) <$> profit.

(** Modelled from the spec: the DerivedFutureMetrics value object. *)
Record DerivedFutureMetrics : Type := {
  spread_percent : Q;
  fair_futures_price : Q;
  fair_spread_percent : Q;
  funding_until_expiration : option Q;
  funding_365days_until_expiration : option Q;
  net_profit_current_fr : option Q;
  net_profit_365days_fr : option Q;
  net_profit_usdt_current : option Q;
  net_profit_usdt_365days : option Q;
  roc_current : option Q;
  roc_365days : option Q;
}.

(** Modelled from the spec: one future's metrics from the perpetual mark
    [P], the future mark [F], days to expiration [d], the risk-free rate
    [r], the two funding averages and the capital. *)
Definition derive (P F d r : Q) (fr_short fr_long : option Q) (capital : Q)
  : DerivedFutureMetrics :=
  let spread := spread_pct P F in
  let funding := funding_rate_until_expiration fr_short d in
  let funding365 := funding_rate_until_expiration fr_long d in
  let profit := net_profit funding spread in
  let profit365 := net_profit funding365 spread in
  {| spread_percent := spread;
     fair_futures_price := fair_price P r d;
     fair_spread_percent := fair_spread_pct P r d;
     funding_until_expiration := funding;
     funding_365days_until_expiration := funding365;
     net_profit_current_fr := profit;
     net_profit_365days_fr := profit365;
     net_profit_usdt_current := net_profit_usdt profit capital;
     net_profit_usdt_365days := net_profit_usdt profit365 capital;
     roc_current := return_on_capital profit d;
     roc_365days := return_on_capital profit365 d |}.

(** A metric that is available and equal to [v]. *)
Definition metric_is (m : option Q) (v : Q) : Prop :=
  exists x, m = Some x /\ x == v.

(** *** ConfigStore *)

(** Modelled from the spec: the numeric parameters of Config. *)
Inductive field : Type :=
  | spread_threshold_percent
  | funding_rate_history_days
  | monitoring_interval_seconds
  | return_on_capital_threshold
  | capital_usdt
  | leverage
  | risk_free_rate.

(** Modelled from the spec: Config, the process-wide parameters. *)
Record Config : Type := {
  cfg_spread_threshold_percent : Q;
  cfg_funding_rate_history_days : Q;
  cfg_monitoring_interval_seconds : Q;
  cfg_return_on_capital_threshold : Q;
  cfg_capital_usdt : Q;
  cfg_leverage : Q;
  cfg_risk_free_rate : Q;
  cfg_perpetual_symbol : string;
}.

(** Modelled from the spec: writing one field of Config. *)
Definition set_field (f : field) (v : Q) (c : Config) : Config :=
  match f with
  | spread_threshold_percent =>
      {| cfg_spread_threshold_percent := v;
         cfg_funding_rate_history_days := cfg_funding_rate_history_days c;
         cfg_monitoring_interval_seconds := cfg_monitoring_interval_seconds c;
         cfg_return_on_capital_threshold := cfg_return_on_capital_threshold c;
         cfg_capital_usdt := cfg_capital_usdt c;
         cfg_leverage := cfg_leverage c;
         cfg_risk_free_rate := cfg_risk_free_rate c;
         cfg_perpetual_symbol := cfg_perpetual_symbol c |}
  | funding_rate_history_days =>
      {| cfg_spread_threshold_percent := cfg_spread_threshold_percent c;
         cfg_funding_rate_history_days := v;
         cfg_monitoring_interval_seconds := cfg_monitoring_interval_seconds c;
         cfg_return_on_capital_threshold := cfg_return_on_capital_threshold c;
         cfg_capital_usdt := cfg_capital_usdt c;
         cfg_leverage := cfg_leverage c;
         cfg_risk_free_rate := cfg_risk_free_rate c;
         cfg_perpetual_symbol := cfg_perpetual_symbol c |}
  | monitoring_interval_seconds =>
      {| cfg_spread_threshold_percent := cfg_spread_threshold_percent c;
         cfg_funding_rate_history_days := cfg_funding_rate_history_days c;
         cfg_monitoring_interval_seconds := v;
         cfg_return_on_capital_threshold := cfg_return_on_capital_threshold c;
         cfg_capital_usdt := cfg_capital_usdt c;
         cfg_leverage := cfg_leverage c;
         cfg_risk_free_rate := cfg_risk_free_rate c;
         cfg_perpetual_symbol := cfg_perpetual_symbol c |}
  | return_on_capital_threshold =>
      {| cfg_spread_threshold_percent := cfg_spread_threshold_percent c;
         cfg_funding_rate_history_days := cfg_funding_rate_history_days c;
         cfg_monitoring_interval_seconds := cfg_monitoring_interval_seconds c;
         cfg_return_on_capital_threshold := v;
         cfg_capital_usdt := cfg_capital_usdt c;
         cfg_leverage := cfg_leverage c;
         cfg_risk_free_rate := cfg_risk_free_rate c;
         cfg_perpetual_symbol := cfg_perpetual_symbol c |}
  | capital_usdt =>
      {| cfg_spread_threshold_percent := cfg_spread_threshold_percent c;
         cfg_funding_rate_history_days := cfg_funding_rate_history_days c;
         cfg_monitoring_interval_seconds := cfg_monitoring_interval_seconds c;
         cfg_return_on_capital_threshold := cfg_return_on_capital_threshold c;
         cfg_capital_usdt := v;
         cfg_leverage := cfg_leverage c;
         cfg_risk_free_rate := cfg_risk_free_rate c;
         cfg_perpetual_symbol := cfg_perpetual_symbol c |}
  | leverage =>
      {| cfg_spread_threshold_percent := cfg_spread_threshold_percent c;
         cfg_funding_rate_history_days := cfg_funding_rate_history_days c;
         cfg_monitoring_interval_seconds := cfg_monitoring_interval_seconds c;
         cfg_return_on_capital_threshold := cfg_return_on_capital_threshold c;
         cfg_capital_usdt := cfg_capital_usdt c;
         cfg_leverage := v;
         cfg_risk_free_rate := cfg_risk_free_rate c;
         cfg_perpetual_symbol := cfg_perpetual_symbol c |}
  | risk_free_rate =>
      {| cfg_spread_threshold_percent := cfg_spread_threshold_percent c;
         cfg_funding_rate_history_days := cfg_funding_rate_history_days c;
         cfg_monitoring_interval_seconds := cfg_monitoring_interval_seconds c;
         cfg_return_on_capital_threshold := cfg_return_on_capital_threshold c;
         cfg_capital_usdt := cfg_capital_usdt c;
         cfg_leverage := cfg_leverage c;
         cfg_risk_free_rate := v;
         cfg_perpetual_symbol := cfg_perpetual_symbol c |}
  end.

(** Modelled from the spec: the numeric ranges an update must respect,
    [leverage > 0], [0 <= risk_free_rate], [capital_usdt > 0]; the spec
    names no range for the other fields. *)
Definition in_range (f : field) (v : Q) : bool :=
  match f with
  | leverage => Qltb 0 v
  | capital_usdt => Qltb 0 v
  | risk_free_rate => Qle_bool 0 v
  | _ => true
  end.

(** Modelled from the spec: a partial update, the fields it sets in the
    order they are given. *)
Definition ConfigUpdate : Type := list (field * Q).

(** Modelled from the spec: validation before applying; the first field
    out of its range, if there is one. *)
Definition validate (u : ConfigUpdate) : option field :=
  (fun r => r.2.1) <$> list_find (fun p => in_range p.1 p.2 = false) u.

(** Modelled from the spec: applying an accepted update, field by field. *)
Definition apply_update (u : ConfigUpdate) (c : Config) : Config :=
  foldl (fun c p => set_field p.1 p.2 c) c u.

(** Modelled from the spec: the answer to an update: applied, or rejected
    with the field that failed. *)
Inductive UpdateResult : Type :=
  | Applied
  | RejectedField (f : field).

(** Modelled from the spec: ConfigStore's update: validate, then apply;
    a rejected update leaves Config as it was. *)
Definition update (u : ConfigUpdate) (c : Config) : Config * UpdateResult :=
  match validate u with
  | Some f => (c, RejectedField f)
  | None => (apply_update u c, Applied)
  end.

(** Modelled from the spec: ConfigStore's read, the current Config. *)
Definition get (c : Config) : Config := c.

End Engine.

(** ** Sample data and a stand-in run time

    Used to evaluate the pages on concrete inputs. *)

Module Samples.

Fixpoint zeros (k : nat) : string :=
  match k with
  | O => ""
  | S k => "0" +:+ zeros k
  end.

(** [toFixed] on a finite number: the sign, then the nearest multiple of
    [10^-f] of the magnitude (a tie goes up), printed with [f] decimals.
    Magnitudes from [10^21] on, which JavaScript prints in exponent
    notation, are printed in full here. *)
Definition decimal_toFixed (x : number) (f : nat) : string :=
  match x with
  | NaN => "NaN"
  | Infinity => "Infinity"
  | NegInfinity => "-Infinity"
  | Fin q =>
      let n := Z.to_N (Qfloor (Qabs q * inject_Z (10 ^ Z.of_nat f) + (1 # 2))) in
      let ds := pretty n in
      let ds := zeros (f + 1 - String.length ds) +:+ ds in
      let k := (String.length ds - f)%nat in
      (if Qle_bool 0 q then "" else "-")
        +:+ String.substring 0 k ds
        +:+ match f with
            | O => ""
            | _ => "." +:+ String.substring k f ds
            end
  end.

(** A few texts with their readings, enough for the examples. *)
Definition table_parseFloat (s : string) : number :=
  if decide (s = "-1") then Fin (-1)
  else if decide (s = "20") then Fin 20
  else if decide (s = "0.05") then Fin (5 # 100)
  else NaN.

Definition table_JSON_parse (s : string) : option json :=
  if decide (s = "[]") then Some (JArray [])
  else if decide (s = "[null]") then Some (JArray [JNull])
  else if decide (s = "[{}]") then Some (JArray [JObject []])
  else if decide (s = "{}") then Some (JObject [])
  else if decide (s = "null") then Some JNull
  else None.

Definition runtime : Builtins :=
  {| toFixed := decimal_toFixed;
     parseFloat := table_parseFloat;
     JSON_parse := table_JSON_parse |}.

(** The parameters of the deployment notes. *)
Definition default_config : Engine.Config :=
  {| Engine.cfg_spread_threshold_percent := 1 # 2;
     Engine.cfg_funding_rate_history_days := 30;
     Engine.cfg_monitoring_interval_seconds := 5;
     Engine.cfg_return_on_capital_threshold := 50;
     Engine.cfg_capital_usdt := 50000;
     Engine.cfg_leverage := 20;
     Engine.cfg_risk_free_rate := 5 # 100;
     Engine.cfg_perpetual_symbol := "ETHUSDT" |}.

(** Nothing connected, nobody subscribed, no dashboard mounted. *)
Definition fresh : App.World :=
  Api.initial {| App.now := 0; App.mounted := ∅ |}.

(** Two recording listeners on a service that was never connected. *)
Definition two_recorders : Api.World (list (nat * json)) :=
  Api.subscribe 1 (Api.subscribe 0 (Api.initial [])).

(** The two recorders with the stream connected and established. *)
Definition connected : Api.World (list (nat * json)) :=
  Api.onopen (Api.set_readyState 0 Api.OPEN
                (Api.connect "/ws/instruments" two_recorders)).

(** The server has closed that socket: the service waits to reconnect. *)
Definition waiting : Api.World (list (nat * json)) :=
  Api.onclose "/ws/instruments" (Api.set_readyState 0 Api.CLOSED connected).

(** An asset page on its first effect instance. *)
Definition asset_page : AssetLoader.State :=
  AssetLoader.effect (Some "ETH") (AssetLoader.initial (Some "ETH")).

(** A settings editor with two fields loaded. *)
Definition editor : Settings.State :=
  {| Settings.config :=
       Some (<["leverage" := JNumber (Fin 20)]>
               (<["capital_usdt" := JNumber (Fin 50000)]> ∅));
     Settings.loading := false;
     Settings.saving := false;
     Settings.message := None |}.

(** A row that meets the three conditions of the highlight. *)
Definition highlighted_future : AssetPage.FutureData :=
  {| AssetPage.symbol := "ETHUSDT-26DEC25";
     AssetPage.mark_price := Fin 3015;
     AssetPage.last_price := Fin 3015;
     AssetPage.timestamp := Fin 0;
     AssetPage.delivery_time := Undefined;
     AssetPage.days_until_expiration := Num (Fin 30);
     AssetPage.spread_percent := Num (Fin (1 # 2));
     AssetPage.fair_futures_price := Undefined;
     AssetPage.fair_spread_percent := Num (Fin 2);
     AssetPage.funding_rate_until_expiration := Num (Fin (9 # 10));
     AssetPage.funding_rate_365days_until_expiration := Undefined;
     AssetPage.net_profit_current_fr := Num (Fin (284 # 1000));
     AssetPage.net_profit_365days_fr := Undefined;
     AssetPage.net_profit_usdt := Undefined;
     AssetPage.return_on_capital := Undefined;
     AssetPage.net_profit_usdt_365days := Undefined;
     AssetPage.return_on_capital_365days := Undefined;
     AssetPage.average_fr_days_used := Undefined |}.

(** [member k v]: the property [k] of a parsed object, if it has one. *)
Definition member (k : string) (v : json) : option json :=
  match v with
  | JObject members => snd <$> head (filter (fun kv => kv.1 = k) members)
  | _ => None
  end.

Definition is_number (v : option json) : bool :=
  match v with Some (JNumber _) => true | _ => false end.

(** A stand-in for the page's markup: it is built when the body has an
    object [perpetual] and an array [futures], and throws otherwise. *)
Definition page_outline : AssetLoader.PageMarkup :=
  {| AssetLoader.page_markup := fun st =>
       match member "perpetual" (AssetLoader.data st),
             member "futures" (AssetLoader.data st) with
       | Some (JObject _), Some (JArray rows) =>
           Some ("page with " +:+ pretty (length rows) +:+ " futures")
       | _, _ => None
       end |}.

(** A stand-in for a dashboard row's markup: it is built when the row is
    an object whose six numbers sent through [toFixed] are numbers. *)
Definition row_outline : Dashboard.RowMarkup :=
  {| Dashboard.row_markup := fun row =>
       if is_number (member "perpetual_price" row)
          && is_number (member "futures_price" row)
          && is_number (member "spread_percent" row)
          && is_number (member "days_until_expiration" row)
          && is_number (member "net_profit_percent" row)
          && is_number (member "return_on_capital" row)
       then Some "row" else None |}.

(** A body of [/api/instruments/ETH] with a perpetual and no futures. *)
Definition eth_body : json :=
  JObject [("perpetual", JObject [("symbol", JString "ETHUSDT");
                                  ("mark_price", JNumber (Fin 3000))]);
           ("futures", JArray []);
           ("risk_free_rate_annual", JNumber (Fin (5 # 100)))].

(** Rounding a rational to the nearest binary64 number, ties to even
    (normal range only: no overflow, no subnormal numbers). *)
Definition round_half_even (x : Q) : Z :=
  let f := Qfloor x in
  match Qcompare (x - inject_Z f) (1 # 2) with
  | Lt => f
  | Gt => (f + 1)%Z
  | Eq => if Z.even f then f else (f + 1)%Z
  end.

Definition pow2 (e : Z) : Q :=
  if (0 <=? e)%Z then inject_Z (2 ^ e) else / inject_Z (2 ^ (- e)).

Definition round64 (x : Q) : Q :=
  if Qeq_bool x 0 then 0 else
  let a := Qabs x in
  let e0 := (Z.log2 (Z.abs (Qnum a)) - Z.log2 (Zpos (Qden a)))%Z in
  let e := if Qle_bool (pow2 e0) a then e0 else (e0 - 1)%Z in
  let s := (e - 52)%Z in
  let m := round_half_even (a / pow2 s) in
  Qred ((if Qle_bool 0 x then 1 else -1) * inject_Z m * pow2 s).

(** The binary64 product on finite numbers; the special values as in
    [num_mul]. *)
Definition binary64 : Binary64 :=
  {| times := fun a b =>
       match num_mul a b with
       | Fin q => Fin (round64 q)
       | other => other
       end |}.

(** A row whose return on capital and USDT amounts arrive as [null]. *)
Definition null_future : AssetPage.FutureData :=
  {| AssetPage.symbol := "ETHUSDT-26DEC25";
     AssetPage.mark_price := Fin 3015;
     AssetPage.last_price := Fin 3015;
     AssetPage.timestamp := Fin 0;
     AssetPage.delivery_time := Undefined;
     AssetPage.days_until_expiration := Num (Fin 0);
     AssetPage.spread_percent := Num (Fin (1 # 2));
     AssetPage.fair_futures_price := Num (Fin 3015);
     AssetPage.fair_spread_percent := Num (Fin 0);
     AssetPage.funding_rate_until_expiration := Null;
     AssetPage.funding_rate_365days_until_expiration := Null;
     AssetPage.net_profit_current_fr := Null;
     AssetPage.net_profit_365days_fr := Null;
     AssetPage.net_profit_usdt := Null;
     AssetPage.return_on_capital := Null;
     AssetPage.net_profit_usdt_365days := Null;
     AssetPage.return_on_capital_365days := Null;
     AssetPage.average_fr_days_used := Null |}.

(** A row whose spread equals its funding until expiration, 0.9 both. *)
Definition boundary_future : AssetPage.FutureData :=
  {| AssetPage.symbol := "ETHUSDT-26DEC25";
     AssetPage.mark_price := Fin 3015;
     AssetPage.last_price := Fin 3015;
     AssetPage.timestamp := Fin 0;
     AssetPage.delivery_time := Undefined;
     AssetPage.days_until_expiration := Num (Fin 30);
     AssetPage.spread_percent := Num (Fin (9 # 10));
     AssetPage.fair_futures_price := Undefined;
     AssetPage.fair_spread_percent := Num (Fin 2);
     AssetPage.funding_rate_until_expiration := Num (Fin (9 # 10));
     AssetPage.funding_rate_365days_until_expiration := Undefined;
     AssetPage.net_profit_current_fr := Num (Fin 1);
     AssetPage.net_profit_365days_fr := Undefined;
     AssetPage.net_profit_usdt := Undefined;
     AssetPage.return_on_capital := Undefined;
     AssetPage.net_profit_usdt_365days := Undefined;
     AssetPage.return_on_capital_365days := Undefined;
     AssetPage.average_fr_days_used := Undefined |}.

End Samples.

(** * Properties *)

(** ** Comparisons *)

Section NumberFacts.

Lemma Qltb_lt (p q : Q) : Qltb p q = true <-> p < q.
Proof.
  unfold Qltb. rewrite Qlt_alt. destruct (p ?= q); split; congruence.
Qed.

Lemma num_lt_Fin (p q : Q) : num_lt (Fin p) (Fin q) = true <-> p < q.
Proof. apply Qltb_lt. Qed.

Lemma num_eq_Fin (p q : Q) : num_eq (Fin p) (Fin q) = true <-> p == q.
Proof. apply Qeq_bool_iff. Qed.

(** Equal numbers are not strictly ordered, whichever side. *)
Lemma num_eq_not_lt (a b : number) :
  num_eq a b = true -> num_lt a b = false /\ num_lt b a = false.
Proof.
  destruct a as [| | |p], b as [| | |q]; simpl; try discriminate; auto.
  intros E%Qeq_bool_iff. unfold Qltb.
  rewrite <- (Qcompare_antisym p q).
  apply Qeq_alt in E. rewrite E. auto.
Qed.

(** A comparison that holds has two operands that are not [undefined]. *)
Lemma lt_defined (a b : value) :
  lt a b = true -> not_undefined a = true /\ not_undefined b = true.
Proof.
  unfold lt. destruct a as [| |x], b as [| |y]; simpl; auto;
    try discriminate; destruct x; simpl; discriminate.
Qed.

End NumberFacts.

(** ** The highlight flag *)

Section Highlight.
Import AssetPage.

(** C1. [shouldHighlight] answers [true] exactly when the three strict
    comparisons of the source hold: spread below the funding until
    expiration, spread below the fair spread, net profit above zero. As soon
    as one of them compares two equal numbers the row is not highlighted. *)
Theorem shouldHighlight_iff_three_strict (future : FutureData) :
  (shouldHighlight future = true <->
     lt (spread_percent future) (funding_rate_until_expiration future) = true
     /\ lt (spread_percent future) (fair_spread_percent future) = true
     /\ gt (net_profit_current_fr future) (Num (Fin 0)) = true)
  /\ (num_eq (ToNumber (spread_percent future))
             (ToNumber (funding_rate_until_expiration future)) = true
      \/ num_eq (ToNumber (spread_percent future))
                (ToNumber (fair_spread_percent future)) = true
      \/ num_eq (ToNumber (net_profit_current_fr future)) (Fin 0) = true ->
      shouldHighlight future = false).
Proof.
  assert (Hiff : shouldHighlight future = true <->
     lt (spread_percent future) (funding_rate_until_expiration future) = true
     /\ lt (spread_percent future) (fair_spread_percent future) = true
     /\ gt (net_profit_current_fr future) (Num (Fin 0)) = true).
  { unfold shouldHighlight. rewrite !andb_true_iff. split.
    - tauto.
    - intros (H1 & H2 & H3).
      destruct (lt_defined _ _ H1) as [Ds Df].
      destruct (lt_defined _ _ H2) as [_ Dp].
      unfold gt in H3. destruct (lt_defined _ _ H3) as [_ Dn].
      unfold gt. tauto. }
  split; [exact Hiff|].
  intros Heq. apply not_true_is_false. intros Ht.
  apply Hiff in Ht. destruct Ht as (H1 & H2 & H3).
  unfold lt, gt in *. change (ToNumber (Num (Fin 0))) with (Fin 0) in H3.
  destruct Heq as [E | [E | E]]; apply num_eq_not_lt in E; destruct E; congruence.
Qed.

Lemma shouldHighlight_boundary_witness :
  shouldHighlight Samples.boundary_future = false.
Proof.
  apply (proj2 (shouldHighlight_iff_three_strict Samples.boundary_future)).
  left. reflexivity.
Defined.

(** On finite numbers the three comparisons are the ones of the rationals. *)
Lemma shouldHighlight_finite (future : FutureData) (s f p n : Q) :
  spread_percent future = Num (Fin s) ->
  funding_rate_until_expiration future = Num (Fin f) ->
  fair_spread_percent future = Num (Fin p) ->
  net_profit_current_fr future = Num (Fin n) ->
  shouldHighlight future = true <-> s < f /\ s < p /\ 0 < n.
Proof.
  intros Hs Hf Hp Hn. unfold shouldHighlight, lt, gt.
  rewrite Hs, Hf, Hp, Hn. simpl.
  rewrite !andb_true_iff, !Qltb_lt. tauto.
Qed.

End Highlight.

(** ** Rendering *)

Section Rendering.
Context `{Builtins}.

Lemma app_percent_not_NA (s : string) : s +:+ "%" <> "N/A".
Proof.
  destruct s as [|c1 [|c2 [|c3 [|c4 s]]]]; simpl; intros E;
    inversion E.
Qed.

Lemma empty_prefix (b : bool) (s : string) :
  (if b then "" else "") +:+ s = s.
Proof. now destruct b. Qed.

Lemma formatPercentAlready_Num (n : number) (decimals : nat) :
  AssetPage.formatPercentAlready (Num n) decimals = toFixed n decimals +:+ "%".
Proof. unfold AssetPage.formatPercentAlready. apply empty_prefix. Qed.

Lemma formatPercent_Num (n : number) (decimals : nat) :
  AssetPage.formatPercent (Num n) decimals
  = toFixed (num_mul n (Fin 100)) decimals +:+ "%".
Proof. unfold AssetPage.formatPercent. apply empty_prefix. Qed.

(** A derived metric that is absent ([undefined]) is printed as
    ["N/A"] by [formatPercentAlready] and by the two return-on-capital
    cells, and an absent USDT amount adds nothing to its cell; whereas
    every number, zero included, is printed as its digits followed by a
    percent sign, which is never the text ["N/A"]. The cells of the table
    are built from these pieces. *)
Theorem missing_metric_rendered_NA :
  (forall decimals, AssetPage.formatPercentAlready Undefined decimals = "N/A")
  /\ AssetPage.roc_text Undefined = "N/A"
  /\ AssetPage.usdt_suffix Undefined = ""
  /\ (forall n decimals,
        AssetPage.formatPercentAlready (Num n) decimals
          = toFixed n decimals +:+ "%"
        /\ AssetPage.formatPercentAlready (Num n) decimals <> "N/A")
  /\ (forall n,
        AssetPage.roc_text (Num n) = toFixed n 2 +:+ "%"
        /\ AssetPage.roc_text (Num n) <> "N/A")
  /\ (forall future,
        AssetPage.funding_cell future
          = AssetPage.formatPercentAlready
              (AssetPage.funding_rate_until_expiration future) 2
        /\ AssetPage.funding_365days_cell future
          = AssetPage.formatPercentAlready
              (AssetPage.funding_rate_365days_until_expiration future) 2
        /\ AssetPage.net_profit_cell future
          = AssetPage.formatPercentAlready
              (AssetPage.net_profit_current_fr future) 2
            +:+ AssetPage.usdt_suffix (AssetPage.net_profit_usdt future)
        /\ AssetPage.net_profit_365days_cell future
          = AssetPage.formatPercentAlready
              (AssetPage.net_profit_365days_fr future) 2
            +:+ AssetPage.usdt_suffix (AssetPage.net_profit_usdt_365days future)
        /\ AssetPage.return_on_capital_cell future
          = AssetPage.roc_text (AssetPage.return_on_capital future)
        /\ AssetPage.return_on_capital_365days_cell future
          = AssetPage.roc_text (AssetPage.return_on_capital_365days future)).
Proof.
  repeat split; try reflexivity.
  - apply formatPercentAlready_Num.
  - rewrite formatPercentAlready_Num. apply app_percent_not_NA.
  - apply app_percent_not_NA.
Qed.

(** [null] is treated like [undefined] by the formatting helpers, but the
    return-on-capital cells only test for [undefined]. *)
Lemma null_rendering (decimals : nat) :
  AssetPage.formatPercentAlready Null decimals = "N/A"
  /\ AssetPage.formatNumber Null decimals = "N/A"
  /\ AssetPage.roc_text Null = "N/A%".
Proof. repeat split. Qed.

(** C2. A row whose missing metrics arrive as [null]. The formatting
    helpers treat [null] as missing, [formatNumber] included, and the
    funding cells read ["N/A"]; but the guards of the return-on-capital
    cells and of the USDT amounts test for [undefined] only, so these
    cells read ["N/A%"] and ["N/A ($N/A)"], not ["N/A"]. *)
Theorem null_metric_not_rendered_NA :
  AssetPage.formatNumber Null 2 = "N/A"
  /\ AssetPage.funding_cell Samples.null_future = "N/A"
  /\ AssetPage.funding_365days_cell Samples.null_future = "N/A"
  /\ AssetPage.return_on_capital_cell Samples.null_future = "N/A%"
  /\ AssetPage.return_on_capital_365days_cell Samples.null_future = "N/A%"
  /\ AssetPage.net_profit_cell Samples.null_future = "N/A ($N/A)"
  /\ AssetPage.net_profit_365days_cell Samples.null_future = "N/A ($N/A)"
  /\ AssetPage.return_on_capital_cell Samples.null_future <> "N/A"
  /\ AssetPage.net_profit_cell Samples.null_future <> "N/A".
Proof.
  repeat split; try reflexivity; intros E; discriminate E.
Qed.

(** The days cell tests the value's truthiness: zero days read ["N/A"]. *)
Lemma days_cell_zero (future : AssetPage.FutureData) :
  AssetPage.days_until_expiration future = Num (Fin 0) ->
  AssetPage.days_cell future = "N/A".
Proof. intros E. unfold AssetPage.days_cell. now rewrite E. Qed.

(** The net-profit cells append the USDT amount when it is present. *)
Lemma net_profit_cell_missing (future : AssetPage.FutureData) :
  AssetPage.net_profit_current_fr future = Undefined ->
  AssetPage.net_profit_usdt future = Undefined ->
  AssetPage.net_profit_cell future = "N/A".
Proof.
  intros E1 E2. unfold AssetPage.net_profit_cell. now rewrite E1, E2.
Qed.

(** C4. Both pages print [spread_percent] as it arrives: the number given
    to [toFixed] is the field itself. The funding rates of the perpetual
    are decimal fractions and are multiplied by 100 on the way. *)
Theorem spread_percent_rendered_unscaled :
  (forall instrument,
      Dashboard.spread_cell instrument
      = (if num_ge (Dashboard.spread_percent instrument) (Fin 0)
         then "+" else "")
          +:+ toFixed (Dashboard.spread_percent instrument) 2 +:+ "%")
  /\ (forall future,
      AssetPage.spread_cell future
      = match AssetPage.spread_percent future with
        | Num n => toFixed n 2 +:+ "%"
        | _ => "N/A"
        end)
  /\ (forall instrument,
      Dashboard.funding_rate_cell instrument
      = (if num_ge (num_mul (Dashboard.funding_rate instrument) (Fin 100)) (Fin 0)
         then "+" else "")
          +:+ toFixed (num_mul (Dashboard.funding_rate instrument) (Fin 100)) 2
          +:+ "%")
  /\ (forall instrument,
      Dashboard.avg_funding_rate_cell instrument
      = (if num_ge (num_mul (Dashboard.avg_funding_rate instrument) (Fin 100)) (Fin 0)
         then "+" else "")
          +:+ toFixed (num_mul (Dashboard.avg_funding_rate instrument) (Fin 100)) 2
          +:+ "%")
  /\ (forall n,
      AssetPage.funding_rate_card (Num n)
      = toFixed (num_mul n (Fin 100)) 4 +:+ "%").
Proof.
  repeat split.
  - intros future. unfold AssetPage.spread_cell.
    destruct (AssetPage.spread_percent future); try reflexivity.
    apply formatPercentAlready_Num.
  - intros n. apply formatPercent_Num.
Qed.

End Rendering.

(** The scenario's spread of 0.5 is printed as such on both pages; a
    funding rate of 0.0001 is printed as 0.01 percent. *)
Example spread_half_percent :
  @AssetPage.formatPercentAlready Samples.runtime
     (Num (Fin (Engine.spread_pct 3000 3015))) 2 = "0.50%"
  /\ @Dashboard.formatPercent Samples.runtime (Fin (Engine.spread_pct 3000 3015))
     = "+0.50%"
  /\ @Dashboard.formatPercent Samples.runtime (num_mul (Fin (1 # 10000)) (Fin 100))
     = "+0.01%"
  /\ @AssetPage.formatPercent Samples.runtime (Num (Fin (1 # 10000))) 4 = "0.0100%"
  /\ @AssetPage.formatPercentAlready Samples.runtime (Num (Fin 0)) 2 = "0.00%"
  /\ @AssetPage.roc_text Samples.runtime (Num (Fin 0)) = "0.00%".
Proof. vm_compute. repeat split. Qed.

(** ** The analytics formulas *)

Section Analytics.
Import Engine.

Lemma fair_spread_pct_closed (P r d : Q) :
  ~ P == 0 -> fair_spread_pct P r d == r * d * (100 / 365).
Proof. intros HP. unfold fair_spread_pct, fair_price. now field. Qed.

Lemma Qcompare_0_scale (r k : Q) : 0 < k -> (0 ?= r * k) = (0 ?= r).
Proof.
  intros Hk. destruct (Qcompare_spec 0 r) as [E | L | G].
  - apply Qeq_alt. rewrite <- E. ring.
  - apply Qlt_alt. apply Qmult_lt_0_compat; assumption.
  - apply Qgt_alt. apply Qlt_le_trans with (0 * k).
    + apply Qmult_lt_compat_r; assumption.
    + rewrite Qmult_0_l. apply Qle_refl.
Qed.

(** C7. With a perpetual price different from zero and [d > 0] the fair
    spread has the sign of the risk-free rate (compared with zero, both
    give the same answer); at [d = 0] the fair price is the perpetual
    price and the fair spread is zero. *)
Theorem fair_spread_sign (P r d : Q) :
  (~ P == 0 -> 0 < d -> (0 ?= fair_spread_pct P r d) = (0 ?= r))
  /\ fair_price P r 0 == P
  /\ fair_spread_pct P r 0 == 0.
Proof.
  split; [|split].
  - intros HP Hd.
    rewrite (Qcompare_comp 0 0 (Qeq_refl 0) _ _ (fair_spread_pct_closed P r d HP)).
    setoid_replace (r * d * (100 / 365)) with (r * (d * (100 / 365)))
      using relation Qeq by ring.
    apply Qcompare_0_scale.
    apply Qmult_lt_0_compat; [assumption | reflexivity].
  - unfold fair_price. field.
  - unfold fair_spread_pct, fair_price.
    setoid_replace (P * (1 + r * 0 / 365) - P) with 0 using relation Qeq by field.
    unfold Qdiv. ring.
Qed.

Lemma fair_spread_sign_witness :
  (0 ?= fair_spread_pct 3000 (5 # 100) 30) = (0 ?= 5 # 100).
Proof.
  apply (proj1 (fair_spread_sign 3000 (5 # 100) 30)).
  - intros E. discriminate E.
  - reflexivity.
Defined.

(** The three readings of the sign, on the order of the rationals. *)
Lemma fair_spread_sign_cases (P r d : Q) :
  ~ P == 0 -> 0 < d ->
  (0 < r <-> 0 < fair_spread_pct P r d)
  /\ (r == 0 <-> fair_spread_pct P r d == 0)
  /\ (r < 0 <-> fair_spread_pct P r d < 0).
Proof.
  intros HP Hd.
  assert (E : (0 ?= fair_spread_pct P r d) = (0 ?= r)).
  { rewrite (Qcompare_comp 0 0 (Qeq_refl 0) _ _ (fair_spread_pct_closed P r d HP)).
    setoid_replace (r * d * (100 / 365)) with (r * (d * (100 / 365)))
      using relation Qeq by ring.
    apply Qcompare_0_scale.
    apply Qmult_lt_0_compat; [assumption | reflexivity]. }
  split; [|split].
  - rewrite !Qlt_alt, E. tauto.
  - split; intros H0; apply Qeq_sym; apply Qeq_alt;
      [rewrite E | rewrite <- E]; apply Qeq_alt; apply Qeq_sym; exact H0.
  - rewrite !Qgt_alt, E. tauto.
Qed.

(** C3. The end-to-end scenario: perpetual 3000, future 3015, 30 days,
    rate 0.05, short funding average 0.0001 per interval. Whatever the long
    average and the capital, the formulas give a spread of 0.5, a fair price
    of [3000*(1+0.05*30/365)], which is 3012.33 to the cent, a fair spread of
    0.411 to three decimals, 0.9 of funding until expiration, a net profit of
    0.284 and a return on capital of [0.284*365/30], 3.455 to three
    decimals, with a commission of four times 0.0290, 0.1160. *)
Theorem scenario_metrics (fr_long : option Q) (capital : Q) :
  let m := derive 3000 3015 30 (5 # 100) (Some (1 # 10000)) fr_long capital in
  commission == 1160 # 10000
  /\ spread_percent m == 1 # 2
  /\ fair_futures_price m == 3000 * (1 + (5 # 100) * 30 / 365)
  /\ Qabs (fair_futures_price m - (301233 # 100)) < 5 # 1000
  /\ Qabs (fair_spread_percent m - (411 # 1000)) < 5 # 10000
  /\ metric_is (funding_until_expiration m) (9 # 10)
  /\ metric_is (net_profit_current_fr m) (284 # 1000)
  /\ metric_is (roc_current m) ((284 # 1000) * 365 / 30)
  /\ Qabs ((284 # 1000) * 365 / 30 - (3455 # 1000)) < 5 # 10000.
Proof.
  cbv zeta. unfold derive; cbn [spread_percent fair_futures_price
    fair_spread_percent funding_until_expiration net_profit_current_fr
    roc_current].
  repeat split; try (vm_compute; reflexivity).
  - eexists. split; [reflexivity | vm_compute; reflexivity].
  - eexists. split; [reflexivity | vm_compute; reflexivity].
  - eexists. split; [vm_compute; reflexivity | vm_compute; reflexivity].
Qed.

(** Read without the conversion to percent, [fr * 3 * d] would give 0.009
    in the scenario, not 0.9. *)
Remark funding_without_percent_conversion :
  (1 # 10000) * intervals_per_day * 30 == 9 # 1000.
Proof. reflexivity. Qed.

(** Without a funding average, or at [d = 0], the metrics that depend on
    it are unavailable. *)
Lemma metrics_unavailable (P F d r : Q) (fr_long : option Q) (capital : Q) :
  let m := derive P F d r None fr_long capital in
  funding_until_expiration m = None
  /\ net_profit_current_fr m = None
  /\ net_profit_usdt_current m = None
  /\ roc_current m = None.
Proof.
  cbv zeta. unfold derive, return_on_capital; simpl.
  repeat split. now destruct (Qeq_bool d 0).
Qed.

Lemma return_on_capital_at_expiry (profit : option Q) :
  return_on_capital profit 0 = None.
Proof. reflexivity. Qed.

(** *** ConfigStore *)

Lemma validate_Some (u : ConfigUpdate) (f : field) :
  validate u = Some f ->
  exists v, (f, v) ∈ u /\ in_range f v = false.
Proof.
  unfold validate. intros E.
  destruct (list_find _ u) as [[i [g v]]|] eqn:Hfind; [|discriminate].
  simpl in E. injection E as <-.
  apply list_find_Some in Hfind as (Hi & Hr & _).
  exists v. split; [|exact Hr].
  eapply list_elem_of_lookup_2; eassumption.
Qed.

Lemma validate_complete (u : ConfigUpdate) (f : field) (v : Q) :
  (f, v) ∈ u -> in_range f v = false -> is_Some (validate u).
Proof.
  intros Hin Hr. unfold validate.
  destruct (list_find _ u) as [[i [g w]]|] eqn:Hfind; [eexists; reflexivity|].
  exfalso. eapply list_find_None in Hfind.
  rewrite Forall_forall in Hfind. exact (Hfind _ Hin Hr).
Qed.

(** C5. An update that sets some field out of its range is rejected: the
    answer names a field that the update sets out of range, the stored
    Config is the one before the update, and so is what a read gives. *)
Theorem rejected_update_leaves_config
    (c : Config) (u : ConfigUpdate) (f : field) (v : Q) :
  (f, v) ∈ u -> in_range f v = false ->
  exists g w,
    (g, w) ∈ u /\ in_range g w = false
    /\ update u c = (c, RejectedField g)
    /\ get (update u c).1 = c.
Proof.
  intros Hin Hr.
  destruct (validate_complete u f v Hin Hr) as [g Hg].
  destruct (validate_Some u g Hg) as (w & Hw & Hrw).
  exists g, w. unfold update, get. rewrite Hg. auto.
Qed.

End Analytics.

(** [leverage = -1] on its own, against the default parameters. *)
Lemma leverage_minus_one_witness :
  exists g w,
    (g, w) ∈ [(Engine.leverage, -1)] /\ Engine.in_range g w = false
    /\ Engine.update [(Engine.leverage, -1)] Samples.default_config
        = (Samples.default_config, Engine.RejectedField g)
    /\ Engine.get (Engine.update [(Engine.leverage, -1)] Samples.default_config).1
        = Samples.default_config.
Proof.
  apply (rejected_update_leaves_config Samples.default_config
           [(Engine.leverage, -1)] Engine.leverage (-1)).
  - apply list_elem_of_here.
  - reflexivity.
Defined.

Example leverage_minus_one (c : Engine.Config) :
  Engine.update [(Engine.leverage, -1)] c = (c, Engine.RejectedField Engine.leverage)
  /\ Engine.update [(Engine.capital_usdt, 5000); (Engine.leverage, -1)] c
     = (c, Engine.RejectedField Engine.leverage)
  /\ Engine.cfg_leverage (Engine.update [(Engine.leverage, 20)] c).1 = 20.
Proof. repeat split. Qed.

(** ** The stream: delivery to the subscribers *)

Section Delivery.
Context `{Builtins}.

(** Whatever the listeners do, [onmessage] itself ends normally: the
    [catch] clause takes every exception of the [try] block. *)
Lemma onmessage_normal {Subs} (call : nat -> json -> Subs -> Api.completion Subs)
    (data : string) (w : Api.World Subs) :
  exists w', Api.onmessage call data w = Api.Normal w'.
Proof.
  unfold Api.onmessage, Api.try_catch.
  destruct (Api.onmessage_try call data w); eexists; reflexivity.
Qed.

(** A text that does not parse reaches no listener. *)
Lemma onmessage_unparseable {Subs}
    (call : nat -> json -> Subs -> Api.completion Subs)
    (data : string) (w : Api.World Subs) :
  JSON_parse data = None ->
  Api.onmessage call data w
  = Api.Normal (Api.console_log "Error parsing WebSocket message:" w).
Proof.
  intros E. unfold Api.onmessage, Api.onmessage_try. now rewrite E.
Qed.

(** Recording listeners: [forEach] calls each listener once, in order,
    with the same value. *)
Lemma forEach_recording (ls : list nat) (v : json) (log : list (nat * json)) :
  Api.forEach Api.recording ls v log
  = Api.Normal (log ++ map (fun l => (l, v)) ls).
Proof.
  revert log. induction ls as [|l ls IH]; intros log; simpl.
  - now rewrite app_nil_r.
  - rewrite IH. now rewrite <- app_assoc.
Qed.

(** The dashboards' listeners: each one applies [Dashboard.listener] to
    its own component. *)
Lemma forEach_dashboards (ls : list nat) (v : json) (s : App.Pages) :
  Api.forEach App.call ls v s
  = Api.Normal
      {| App.now := App.now s;
         App.mounted :=
           foldl (fun m l => alter (Dashboard.listener (App.now s) v) l m)
                 (App.mounted s) ls |}.
Proof.
  revert s. induction ls as [|l ls IH]; intros [now m]; simpl.
  - reflexivity.
  - now rewrite IH.
Qed.

Lemma listener_idempotent (now : nat) (v : json) (st : Dashboard.State) :
  Dashboard.listener now v (Dashboard.listener now v st)
  = Dashboard.listener now v st.
Proof. unfold Dashboard.listener. now destruct (as_array v). Qed.

Lemma foldl_alter_lookup (f : Dashboard.State -> Dashboard.State)
    (ls : list nat) (m : gmap nat Dashboard.State) (l : nat) :
  (forall st, f (f st) = f st) ->
  foldl (fun m l => alter f l m) m ls !! l
  = if decide (l ∈ ls) then f <$> m !! l else m !! l.
Proof.
  intros Hf. revert m. induction ls as [|x ls IH]; intros m; simpl.
  - reflexivity.
  - rewrite IH. destruct (decide (x = l)) as [->|Hne].
    + rewrite lookup_alter_eq.
      rewrite (decide_True (P := l ∈ l :: ls)) by apply list_elem_of_here.
      destruct (decide (l ∈ ls)); [|reflexivity].
      destruct (m !! l); simpl; [now rewrite Hf | reflexivity].
    + rewrite lookup_alter_ne by exact Hne.
      destruct (decide (l ∈ ls)) as [Hin|Hnin].
      * rewrite decide_True; [reflexivity | now apply list_elem_of_further].
      * rewrite decide_False; [reflexivity|].
        intros [E|Hin]%elem_of_cons; [congruence | contradiction].
Qed.

Lemma foldl_alter_id (f : Dashboard.State -> Dashboard.State)
    (ls : list nat) (m : gmap nat Dashboard.State) :
  (forall st, f st = st) ->
  foldl (fun m l => alter f l m) m ls = m.
Proof.
  intros Hf. revert m. induction ls as [|x ls IH]; intros m; simpl.
  - reflexivity.
  - rewrite IH. apply map_eq. intros i.
    destruct (decide (x = i)) as [->|Hne].
    + rewrite lookup_alter_eq. destruct (m !! i); simpl; now rewrite ?Hf.
    + now rewrite lookup_alter_ne.
Qed.

(** C6. When a message parses to an array, every listener in the registry
    is called once with that same array (recording listeners show the
    calls), and each subscribed dashboard then holds exactly the delivered
    array as its instrument list, whatever it held before. *)
Theorem broadcast_delivers_and_replaces (data : string) (items : list json) :
  JSON_parse data = Some (JArray items) ->
  (forall w : Api.World (list (nat * json)),
      Api.onmessage Api.recording data w
      = Api.Normal
          (Api.set_subscribers
             (Api.subscribers w
                ++ map (fun l => (l, JArray items)) (Api.listeners w)) w))
  /\ (forall (w : App.World) (l : nat) (st : Dashboard.State),
        l ∈ Api.listeners w ->
        App.page l w = Some st ->
        exists w',
          App.onmessage data w = Api.Normal w'
          /\ App.page l w'
             = Some {| Dashboard.instruments := items;
                       Dashboard.loading := Dashboard.loading st;
                       Dashboard.error := None;
                       Dashboard.lastUpdate :=
                         Some (App.now (Api.subscribers w)) |}).
Proof.
  intros Hparse. split.
  - intros w. unfold Api.onmessage, Api.onmessage_try.
    rewrite Hparse, forEach_recording. reflexivity.
  - intros w l st Hl Hst.
    unfold App.onmessage, Api.onmessage, Api.onmessage_try.
    rewrite Hparse, forEach_dashboards. simpl.
    eexists. split; [reflexivity|].
    unfold App.page in *. simpl.
    rewrite foldl_alter_lookup by apply listener_idempotent.
    rewrite decide_True by exact Hl. rewrite Hst. reflexivity.
Qed.

(** C10. A message that does not parse, or that parses to something
    other than an array, leaves every dashboard as it was (instrument list
    included), and [onmessage] ends normally, for these and for any other
    listeners. *)
Theorem malformed_message_keeps_view (data : string) (w : App.World) :
  (JSON_parse data = None
   \/ exists v, JSON_parse data = Some v /\ as_array v = None) ->
  (exists w',
      App.onmessage data w = Api.Normal w'
      /\ Api.subscribers w' = Api.subscribers w
      /\ forall l, App.page l w' = App.page l w)
  /\ (forall Subs (call : nat -> json -> Subs -> Api.completion Subs)
             (w0 : Api.World Subs),
        exists w', Api.onmessage call data w0 = Api.Normal w').
Proof.
  intros Hbad. split; [|intros; apply onmessage_normal].
  destruct Hbad as [Hnone | (v & Hv & Harr)].
  - unfold App.onmessage. rewrite onmessage_unparseable by exact Hnone.
    eexists. split; [reflexivity|]. split; [reflexivity|].
    intros l. reflexivity.
  - unfold App.onmessage, Api.onmessage, Api.onmessage_try.
    rewrite Hv, forEach_dashboards. simpl.
    eexists. split; [reflexivity|].
    assert (E : Api.subscribers
                  (Api.set_subscribers
                     {| App.now := App.now (Api.subscribers w);
                        App.mounted :=
                          foldl (fun m l =>
                                   alter (Dashboard.listener
                                            (App.now (Api.subscribers w)) v) l m)
                                (App.mounted (Api.subscribers w))
                                (Api.listeners w) |} w)
                = Api.subscribers w).
    { simpl. rewrite foldl_alter_id.
      - now destruct (Api.subscribers w).
      - intros st0. unfold Dashboard.listener. now rewrite Harr. }
    split; [exact E|]. intros l. unfold App.page. now rewrite E.
Qed.

End Delivery.

Lemma broadcast_witness :
  @Api.onmessage Samples.runtime _ Api.recording "[null]" Samples.two_recorders
  = Api.Normal
      (Api.set_subscribers
         (Api.subscribers Samples.two_recorders
            ++ map (fun l => (l, JArray [JNull]))
                   (Api.listeners Samples.two_recorders))
         Samples.two_recorders).
Proof.
  apply (proj1 (@broadcast_delivers_and_replaces Samples.runtime
                  "[null]" [JNull] eq_refl)).
Defined.

Lemma malformed_message_witness :
  exists w',
    @App.onmessage Samples.runtime "<html>" (App.mount 0 Samples.fresh)
    = Api.Normal w'
    /\ Api.subscribers w' = Api.subscribers (App.mount 0 Samples.fresh)
    /\ forall l, App.page l w' = App.page l (App.mount 0 Samples.fresh).
Proof.
  apply (proj1 (@malformed_message_keeps_view Samples.runtime "<html>"
                  (App.mount 0 Samples.fresh) (or_introl eq_refl))).
Defined.

(** A dashboard showing one row keeps it on [{}] and on a text that is
    not JSON, and swaps it for the new array on [[]]. *)
Example dashboard_on_messages :
  let shown :=
    {| Dashboard.instruments := [JObject []]; Dashboard.loading := false;
       Dashboard.error := None; Dashboard.lastUpdate := Some 7%nat |} in
  Dashboard.listener 9%nat (JObject []) shown = shown
  /\ Dashboard.instruments (Dashboard.listener 9%nat (JArray []) shown) = [].
Proof. split; reflexivity. Qed.

(** ** The registry and the reconnect timer *)

Section Registry.
Context `{Builtins}.

Lemma unsubscribe_removes {Subs} (l : nat) (w : Api.World Subs) :
  l ∉ Api.listeners (Api.unsubscribe l w).
Proof.
  unfold Api.unsubscribe. simpl.
  intros [Hne _]%list_elem_of_filter. now apply Hne.
Qed.

(** [socket.close()] touches the socket table only. *)
Lemma WebSocket_close_frame {Subs} (i : nat) (w : Api.World Subs) :
  Api.listeners (Api.WebSocket_close i w) = Api.listeners w
  /\ Api.subscribers (Api.WebSocket_close i w) = Api.subscribers w
  /\ Api.reconnectTimeout (Api.WebSocket_close i w) = Api.reconnectTimeout w
  /\ Api.timers (Api.WebSocket_close i w) = Api.timers w
  /\ Api.next_timer (Api.WebSocket_close i w) = Api.next_timer w.
Proof.
  unfold Api.WebSocket_close.
  destruct (Api.sockets w !! i) as [[ep []]|]; repeat split.
Qed.

Lemma disconnect_frame {Subs} (w : Api.World Subs) :
  Api.listeners (Api.disconnect w) = Api.listeners w
  /\ Api.subscribers (Api.disconnect w) = Api.subscribers w.
Proof.
  unfold Api.disconnect.
  destruct (Api.reconnectTimeout w); simpl; destruct (Api.ws w); simpl;
    try (split; reflexivity);
    destruct (WebSocket_close_frame n0 (Api.set_reconnectTimeout None
                (Api.clearTimeout n w))) as (-> & -> & _)
    || destruct (WebSocket_close_frame n w) as (-> & -> & _);
    split; reflexivity.
Qed.

(** A step other than [Subscribe l] does not bring [l] back into the
    registry, and makes no call to [l] while it is out of it. *)
Lemma exec_keeps_unsubscribed (l : nat) (st : Api.step)
    (w w' : Api.World (list (nat * json))) :
  (st ≠ Api.Subscribe l) ->
  Api.exec Api.recording st w = Some w' ->
  (l ∉ Api.listeners w) ->
  (l ∉ Api.listeners w')
  /\ forall d, (l, d) ∈ Api.subscribers w' -> (l, d) ∈ Api.subscribers w.
Proof.
  intros Hst Hexec Hl.
  destruct st as [ep| |l'|l'|i|i data|i|i|t]; simpl in Hexec.
  - injection Hexec as <-. simpl. tauto.
  - injection Hexec as <-.
    destruct (disconnect_frame w) as [-> ->]. tauto.
  - injection Hexec as <-. unfold Api.subscribe.
    destruct (decide (l' ∈ Api.listeners w)); simpl; [tauto|].
    split; [|tauto].
    intros [Hin | Hin%list_elem_of_singleton]%elem_of_app;
      [contradiction | congruence].
  - injection Hexec as <-. unfold Api.unsubscribe. simpl. split; [|tauto].
    intros [_ Hin]%list_elem_of_filter. contradiction.
  - destruct (Api.sockets w !! i) as [[ep []]|]; try discriminate.
    injection Hexec as <-. unfold Api.onopen. simpl.
    destruct (Api.reconnectTimeout w); simpl; tauto.
  - destruct (Api.sockets w !! i) as [[ep []]|]; try discriminate.
    injection Hexec as <-.
    unfold Api.onmessage, Api.onmessage_try.
    destruct (JSON_parse data) as [v|]; simpl; [|tauto].
    rewrite forEach_recording. simpl. split; [tauto|].
    intros d [Hin | Hin]%elem_of_app; [exact Hin|].
    apply list_elem_of_fmap in Hin as (x & E & Hx).
    injection E as -> _. contradiction.
  - destruct (Api.sockets w !! i) as [[ep []]|]; try discriminate;
      injection Hexec as <-; simpl; tauto.
  - destruct (Api.sockets w !! i) as [[ep []]|]; try discriminate;
      injection Hexec as <-; simpl; tauto.
  - destruct (list_find _ (Api.timers w)) as [[k [t' ep]]|]; try discriminate.
    injection Hexec as <-. simpl. tauto.
Qed.

(** X20. Once the closure returned by [subscribe] has run, no later step
    calls the listener, as long as the listener is not subscribed again. *)
Lemma unsubscribed_never_called (l : nat) (sts : list Api.step) :
  (Api.Subscribe l ∉ sts) ->
  forall w w' : Api.World (list (nat * json)),
  (l ∉ Api.listeners w) ->
  Api.run Api.recording sts w = Some w' ->
  (l ∉ Api.listeners w')
  /\ forall d, (l, d) ∈ Api.subscribers w' -> (l, d) ∈ Api.subscribers w.
Proof.
  induction sts as [|st sts IH]; intros Hno w w' Hl Hrun; simpl in Hrun.
  - injection Hrun as <-. tauto.
  - destruct (Api.exec Api.recording st w) as [w1|] eqn:Hexec; [|discriminate].
    destruct (exec_keeps_unsubscribed l st w w1) as [Hl1 Hlog1]; auto.
    { intros ->. apply Hno, list_elem_of_here. }
    destruct (IH (fun Hin => Hno (list_elem_of_further _ _ _ Hin)) w1 w' Hl1 Hrun)
      as [Hl' Hlog'].
    auto.
Qed.

(** X21. [disconnect] clears the stored reconnect timer: afterwards
    [reconnectTimeout] is [null] and that timer is not pending any more. *)
Lemma disconnect_clears_timer {Subs} (w : Api.World Subs) :
  Api.reconnectTimeout (Api.disconnect w) = None
  /\ forall t ep, Api.reconnectTimeout w = Some t ->
       (t, ep) ∉ Api.timers (Api.disconnect w).
Proof.
  unfold Api.disconnect.
  destruct (Api.reconnectTimeout w) as [t0|] eqn:Ht; simpl.
  - assert (Hgone : forall t ep, Some t0 = Some t ->
              (t, ep) ∉ filter (fun p => p.1 ≠ t0) (Api.timers w)).
    { intros t ep E. injection E as <-.
      intros [Hne _]%list_elem_of_filter. now apply Hne. }
    destruct (Api.ws w) as [i|]; simpl; [|split; [reflexivity | exact Hgone]].
    destruct (WebSocket_close_frame i
                (Api.set_reconnectTimeout None (Api.clearTimeout t0 w)))
      as (_ & _ & -> & -> & _).
    split; [reflexivity | exact Hgone].
  - destruct (Api.ws w) as [i|]; simpl.
    + destruct (WebSocket_close_frame i w) as (_ & _ & -> & _).
      split; [exact Ht | discriminate].
    + split; [exact Ht | discriminate].
Qed.

(** [onclose] stores and arms a fresh timer. *)
Lemma onclose_arms {Subs} (ep : string) (w : Api.World Subs) :
  Api.reconnectTimeout (Api.onclose ep w) = Some (Api.next_timer w)
  /\ (Api.next_timer w, ep) ∈ Api.timers (Api.onclose ep w).
Proof.
  split; [reflexivity|]. simpl.
  apply elem_of_app. right. apply list_elem_of_here.
Qed.

(** After [disconnect] a socket that was connecting or open is closing. *)
Lemma disconnect_live_socket {Subs} (w : Api.World Subs) (i : nat) (s : Api.Socket) :
  Api.ws w = Some i ->
  Api.sockets w !! i = Some s ->
  Api.readyState s = Api.CONNECTING \/ Api.readyState s = Api.OPEN ->
  Api.sockets (Api.disconnect w) !! i
  = Some {| Api.endpoint := Api.endpoint s; Api.readyState := Api.CLOSING |}
  /\ Api.next_timer (Api.disconnect w) = Api.next_timer w.
Proof.
  intros Hws Hs Hlive.
  assert (Hclose : forall w0 : Api.World Subs,
            Api.sockets w0 !! i = Some s ->
            Api.sockets (Api.WebSocket_close i w0) !! i
            = Some {| Api.endpoint := Api.endpoint s;
                      Api.readyState := Api.CLOSING |}).
  { intros w0 Hs0. unfold Api.WebSocket_close. rewrite Hs0.
    destruct s as [ep r]; simpl in *.
    destruct Hlive as [-> | ->]; simpl;
      rewrite list_lookup_alter_eq, Hs0; reflexivity. }
  unfold Api.disconnect.
  destruct (Api.reconnectTimeout w) as [t0|]; simpl; rewrite Hws; simpl.
  - rewrite Hclose by exact Hs.
    destruct (WebSocket_close_frame i
                (Api.set_reconnectTimeout None (Api.clearTimeout t0 w)))
      as (_ & _ & _ & _ & ->).
    split; reflexivity.
  - rewrite Hclose by exact Hs.
    destruct (WebSocket_close_frame i w) as (_ & _ & _ & _ & ->).
    split; reflexivity.
Qed.

(** X22. But closing a socket that is connecting or open makes the
    browser raise its close event, and the [onclose] handler, still
    installed, arms a new reconnect timer for the socket's endpoint. *)
Lemma disconnect_live_socket_rearms {Subs}
    (call : nat -> json -> Subs -> Api.completion Subs)
    (w : Api.World Subs) (i : nat) (s : Api.Socket) :
  Api.ws w = Some i ->
  Api.sockets w !! i = Some s ->
  Api.readyState s = Api.CONNECTING \/ Api.readyState s = Api.OPEN ->
  exists w',
    Api.exec call (Api.CloseEvent i) (Api.disconnect w) = Some w'
    /\ Api.reconnectTimeout w' = Some (Api.next_timer w)
    /\ (Api.next_timer w, Api.endpoint s) ∈ Api.timers w'.
Proof.
  intros Hws Hs Hlive.
  destruct (disconnect_live_socket w i s Hws Hs Hlive) as [Hsock Hnext].
  simpl. rewrite Hsock. simpl.
  eexists. split; [reflexivity|].
  rewrite <- Hnext.
  apply (onclose_arms (Api.endpoint s)
           (Api.set_readyState i Api.CLOSED (Api.disconnect w))).
Qed.

(** An expiring reconnect timer calls [connect]: one more socket. *)
Lemma timer_expiry_connects {Subs}
    (call : nat -> json -> Subs -> Api.completion Subs)
    (w : Api.World Subs) (t : nat) (ep : string) :
  (t, ep) ∈ Api.timers w ->
  exists w',
    Api.exec call (Api.TimerEvent t) w = Some w'
    /\ Api.ws w' = Some (length (Api.sockets w))
    /\ length (Api.sockets w') = S (length (Api.sockets w)).
Proof.
  intros Hin. simpl.
  destruct (list_find (fun p => p.1 = t) (Api.timers w)) as [[k [t' ep']]|] eqn:Hf.
  - eexists. split; [reflexivity|]. simpl. split; [reflexivity|].
    rewrite length_app. simpl. lia.
  - exfalso. apply list_find_None in Hf. rewrite Forall_forall in Hf.
    now apply (Hf _ Hin).
Qed.

(** C8. A dashboard mounts (connect, subscribe), the socket opens, the
    dashboard unmounts (unsubscribe, disconnect). Right after
    [disconnect] the registry is empty and no timer is stored or pending;
    but the socket, now closing, delivers its close event to [onclose],
    which stores and arms timer 1, and when that timer expires [connect]
    runs again and a second socket is connecting. *)
Theorem disconnect_is_followed_by_reconnect :
  exists w2 w4 w5 : App.World,
    App.exec (Api.OpenEvent 0) (App.mount 0 Samples.fresh) = Some w2
    /\ Api.listeners (App.unmount 0 w2) = []
    /\ Api.ws (App.unmount 0 w2) = None
    /\ Api.reconnectTimeout (App.unmount 0 w2) = None
    /\ Api.timers (App.unmount 0 w2) = []
    /\ App.exec (Api.CloseEvent 0) (App.unmount 0 w2) = Some w4
    /\ Api.reconnectTimeout w4 = Some 1%nat
    /\ Api.timers w4 = [(1%nat, "/ws/instruments")]
    /\ App.exec (Api.TimerEvent 1) w4 = Some w5
    /\ Api.ws w5 = Some 1%nat
    /\ Api.sockets w5
       = [ {| Api.endpoint := "/ws/instruments"; Api.readyState := Api.CLOSED |};
           {| Api.endpoint := "/ws/instruments"; Api.readyState := Api.CONNECTING |} ].
Proof.
  do 3 eexists.
  repeat (split; [vm_compute; reflexivity|]).
  vm_compute; reflexivity.
Qed.

End Registry.

(** ** The settings editor *)

Section SettingsEditor.
Context `{Builtins}.
Import Settings.

(** C9. With a configuration loaded, [handleChange] puts into the field
    the number [parseFloat] reads from the text, or the text itself when
    that is [NaN], and checks nothing else; [handleSave] then sends the
    object as it is in the body of the update request. *)
Theorem handleChange_stores_unvalidated
    (field value : string) (c : Config) (l sv : bool)
    (m : option (severity * string)) :
  let st := {| config := Some c; loading := l; saving := sv; message := m |} in
  let stored :=
    if isNaN (parseFloat value) then JString value
    else JNumber (parseFloat value) in
  handleChange field value st
  = {| config := Some (<[field := stored]> c);
       loading := l; saving := sv; message := m |}
  /\ handleSave_request (handleChange field value st)
     = Some {| path := "/api/config"; body := <[field := stored]> c |}.
Proof. split; reflexivity. Qed.

(** A negative leverage and free text both reach the request. *)
Lemma out_of_range_values_are_sent (c : Config) (l sv : bool)
    (m : option (severity * string)) :
  parseFloat "-1" = Fin (-1) ->
  parseFloat "abc" = NaN ->
  let st := {| config := Some c; loading := l; saving := sv; message := m |} in
  (body <$> handleSave_request (handleChange "leverage" "-1" st))
    ≫= (fun b => b !! "leverage") = Some (JNumber (Fin (-1)))
  /\ (body <$> handleSave_request (handleChange "leverage" "abc" st))
       ≫= (fun b => b !! "leverage") = Some (JString "abc").
Proof.
  intros E1 E2. cbv zeta. unfold handleChange, handleSave_request. simpl.
  rewrite E1, E2. simpl. unfold Config in *.
  rewrite !lookup_insert_eq. split; reflexivity.
Qed.

(** The editor keeps what was typed whatever the server answers: only
    [saving] and [message] change. *)
Lemma handleSave_keeps_config (server : Request -> Response) (st : State) :
  config (handleSave server st) = config st.
Proof.
  unfold handleSave, handleSave_request, handleSave_start.
  destruct (config st) as [c|] eqn:E; simpl; [|exact E].
  reflexivity.
Qed.

End SettingsEditor.

(** * Further properties of the sources *)

(** ** The registry of [WebSocketService] *)

Section RegistryMore.
Context `{Builtins}.
Context {Subs : Type} (call : nat -> json -> Subs -> Api.completion Subs).

Lemma onmessage_frame (data : string) (w : Api.World Subs) :
  let w' := Api.outcome (Api.onmessage call data w) in
  Api.listeners w' = Api.listeners w
  /\ Api.ws w' = Api.ws w
  /\ Api.reconnectTimeout w' = Api.reconnectTimeout w
  /\ Api.sockets w' = Api.sockets w
  /\ Api.timers w' = Api.timers w
  /\ Api.next_timer w' = Api.next_timer w.
Proof.
  unfold Api.onmessage, Api.onmessage_try, Api.try_catch.
  destruct (JSON_parse data) as [v|]; simpl; [|repeat split].
  destruct (Api.forEach call (Api.listeners w) v (Api.subscribers w));
    repeat split.
Qed.

(** What a step does to the registry. *)
Lemma exec_listeners (st : Api.step) (w w' : Api.World Subs) :
  Api.exec call st w = Some w' ->
  Api.listeners w'
  = match st with
    | Api.Subscribe l =>
        if decide (l ∈ Api.listeners w) then Api.listeners w
        else Api.listeners w ++ [l]
    | Api.Unsubscribe l => filter (fun x => x ≠ l) (Api.listeners w)
    | _ => Api.listeners w
    end.
Proof.
  intros Hexec.
  destruct st as [ep| |l|l|i|i data|i|i|t]; simpl in Hexec.
  - now injection Hexec as <-.
  - injection Hexec as <-. apply disconnect_frame.
  - injection Hexec as <-. unfold Api.subscribe.
    now destruct (decide (l ∈ Api.listeners w)).
  - now injection Hexec as <-.
  - destruct (Api.sockets w !! i) as [[ep []]|]; try discriminate.
    injection Hexec as <-. unfold Api.onopen. simpl.
    now destruct (Api.reconnectTimeout w).
  - destruct (Api.sockets w !! i) as [[ep []]|]; try discriminate.
    injection Hexec as <-. apply onmessage_frame.
  - destruct (Api.sockets w !! i) as [[ep []]|]; try discriminate;
      now injection Hexec as <-.
  - destruct (Api.sockets w !! i) as [[ep []]|]; try discriminate;
      now injection Hexec as <-.
  - destruct (list_find _ (Api.timers w)) as [[k [t' ep]]|]; try discriminate.
    now injection Hexec as <-.
Qed.

(** X1. The registry is changed by [subscribe] and by the closures it
    returns, and by nothing else: along any run without such a step,
    through connects, disconnects, reconnections and messages, the
    listeners stay registered, in the same order. *)
Theorem registry_survives_reconnects (sts : list Api.step) (w w' : Api.World Subs) :
  Forall (fun st => Api.registry_step st = false) sts ->
  Api.run call sts w = Some w' ->
  Api.listeners w' = Api.listeners w.
Proof.
  revert w. induction sts as [|st sts IH]; intros w Hno Hrun; simpl in Hrun.
  - now injection Hrun as <-.
  - destruct (Api.exec call st w) as [w1|] eqn:Hexec; [|discriminate].
    apply Forall_cons in Hno as [Hst Hno].
    rewrite (IH w1 Hno Hrun), (exec_listeners st w w1 Hexec).
    now destruct st.
Qed.

(** X2. The registry never holds a listener twice, whatever is
    subscribed how often: a step keeps a duplicate-free registry
    duplicate-free, so a message calls each listener once. *)
Theorem registry_without_duplicates (sts : list Api.step) (w w' : Api.World Subs) :
  NoDup (Api.listeners w) ->
  Api.run call sts w = Some w' ->
  NoDup (Api.listeners w').
Proof.
  revert w. induction sts as [|st sts IH]; intros w Hnd Hrun; simpl in Hrun.
  - now injection Hrun as <-.
  - destruct (Api.exec call st w) as [w1|] eqn:Hexec; [|discriminate].
    apply (IH w1); [|exact Hrun].
    rewrite (exec_listeners st w w1 Hexec).
    destruct st as [ep| |l|l|i|i data|i|i|t]; try exact Hnd.
    + destruct (decide (l ∈ Api.listeners w)) as [Hin|Hnin]; [exact Hnd|].
      apply NoDup_app. split; [exact Hnd|]. split; [|apply NoDup_singleton].
      intros x Hx ->%list_elem_of_singleton. contradiction.
    + now apply NoDup_filter.
Qed.

Lemma set_listeners_same (w : Api.World Subs) :
  Api.set_listeners (Api.listeners w) w = w.
Proof. now destruct w. Qed.

Lemma filter_absent (l : nat) (ls : list nat) :
  l ∉ ls -> filter (fun x => x ≠ l) ls = ls.
Proof.
  intros Hl. induction ls as [|x ls IH]; [reflexivity|].
  rewrite filter_cons. destruct (decide (x ≠ l)) as [Hne|He].
  - f_equal. apply IH. intros Hin. apply Hl. now apply list_elem_of_further.
  - exfalso. apply Hl. destruct (decide (x = l)) as [->|Hx].
    + apply list_elem_of_here.
    + contradiction.
Qed.

(** X3. Subscribing a listener that is not registered and then running
    the returned closure gives back the very same service state;
    subscribing twice is subscribing once; and the closure may run again
    without effect. *)
Theorem subscribe_unsubscribe_round_trip (l : nat) (w : Api.World Subs) :
  (l ∉ Api.listeners w -> Api.unsubscribe l (Api.subscribe l w) = w)
  /\ Api.subscribe l (Api.subscribe l w) = Api.subscribe l w
  /\ Api.unsubscribe l (Api.unsubscribe l w) = Api.unsubscribe l w.
Proof.
  split; [|split].
  - intros Hl. unfold Api.subscribe.
    rewrite decide_False by exact Hl.
    unfold Api.unsubscribe, Api.set_listeners. simpl.
    rewrite filter_app, (filter_absent l _ Hl).
    rewrite filter_cons, decide_False by (intros Hne; now apply Hne).
    rewrite filter_nil, app_nil_r. now destruct w.
  - unfold Api.subscribe.
    destruct (decide (l ∈ Api.listeners w)) as [Hin|Hnin].
    + now rewrite decide_True by exact Hin.
    + simpl. rewrite decide_True; [reflexivity|].
      apply elem_of_app. right. apply list_elem_of_here.
  - unfold Api.unsubscribe, Api.set_listeners. simpl.
    rewrite filter_absent; [reflexivity|].
    intros [Hne _]%list_elem_of_filter. now apply Hne.
Qed.

End RegistryMore.

(** ** Disconnecting and reconnecting *)

Section Reconnect.
Context `{Builtins}.
Context {Subs : Type} (call : nat -> json -> Subs -> Api.completion Subs).

Lemma all_closed_lookup (w : Api.World Subs) (i : nat) (s : Api.Socket) :
  Api.all_closed w -> Api.sockets w !! i = Some s ->
  Api.readyState s = Api.CLOSED.
Proof. intros Hall Hs. exact (Forall_lookup_1 _ _ _ _ Hall Hs). Qed.

Lemma WebSocket_close_closed (w : Api.World Subs) (i : nat) :
  Forall (fun s => Api.readyState s = Api.CLOSED) (Api.sockets w) ->
  Api.WebSocket_close i w = w.
Proof.
  intros Hall. unfold Api.WebSocket_close.
  destruct (Api.sockets w !! i) as [[ep r]|] eqn:E; [|reflexivity].
  pose proof (Forall_lookup_1 _ _ _ _ Hall E) as Hr. simpl in Hr.
  now subst r.
Qed.

Lemma disconnect_all_closed (w : Api.World Subs) :
  Api.all_closed w -> Api.sockets (Api.disconnect w) = Api.sockets w.
Proof.
  intros Hall. unfold Api.disconnect.
  destruct (Api.reconnectTimeout w) as [t|]; simpl;
    destruct (Api.ws w) as [i|]; simpl; try reflexivity;
    now rewrite WebSocket_close_closed.
Qed.

Lemma disconnect_timers (w : Api.World Subs) :
  Api.timers (Api.disconnect w)
  = match Api.reconnectTimeout w with
    | Some t => filter (fun p => p.1 ≠ t) (Api.timers w)
    | None => Api.timers w
    end.
Proof.
  unfold Api.disconnect.
  destruct (Api.reconnectTimeout w) as [t|]; simpl;
    destruct (Api.ws w) as [i|]; simpl; try reflexivity.
  - now destruct (WebSocket_close_frame i
          (Api.set_reconnectTimeout None (Api.clearTimeout t w)))
      as (_ & _ & _ & -> & _).
  - now destruct (WebSocket_close_frame i w) as (_ & _ & _ & -> & _).
Qed.

(** X4. When every socket is closed and the only timer pending is the
    stored reconnect timer (the service is waiting to reconnect, or
    idle), [disconnect] is final: afterwards the browser has no event
    left to raise, so nothing of the service runs again by itself. *)
Theorem disconnect_while_waiting_is_final (w : Api.World Subs) (ev : Api.step) :
  Api.all_closed w ->
  Forall (fun p => Api.reconnectTimeout w = Some p.1) (Api.timers w) ->
  Api.browser_event ev = true ->
  Api.exec call ev (Api.disconnect w) = None.
Proof.
  intros Hall Htim Hev.
  assert (Hs : Api.sockets (Api.disconnect w) = Api.sockets w)
    by now apply disconnect_all_closed.
  assert (Ht : Api.timers (Api.disconnect w) = []).
  { rewrite disconnect_timers.
    destruct (Api.reconnectTimeout w) as [t|].
    - induction Htim as [|p ps Hp _ IH]; [reflexivity|].
      rewrite filter_cons, decide_False; [exact IH|].
      intros Hne. injection Hp as ->. now apply Hne.
    - destruct Htim as [|p ps Hp _]; [reflexivity | discriminate]. }
  assert (Hclosed : forall i,
            Api.sockets w !! i = None
            \/ exists ep, Api.sockets w !! i
                 = Some {| Api.endpoint := ep; Api.readyState := Api.CLOSED |}).
  { intros i. destruct (Api.sockets w !! i) as [[ep r]|] eqn:E; [|now left].
    right. exists ep. pose proof (all_closed_lookup w i _ Hall E) as Hr.
    simpl in Hr. now subst r. }
  destruct ev as [ep| |l|l|i|i data|i|i|t]; try discriminate; simpl;
    rewrite ?Hs, ?Ht; try reflexivity;
    destruct (Hclosed i) as [-> | [ep ->]]; reflexivity.
Qed.

Lemma filter_bounded (t : nat) (l : list (nat * string)) :
  Forall (fun p => (p.1 < t)%nat) l -> filter (fun p => p.1 ≠ t) l = l.
Proof.
  induction 1 as [|p ps Hp _ IH]; [reflexivity|].
  rewrite filter_cons, decide_True by lia. now rewrite IH.
Qed.

Lemma list_find_bounded (t : nat) (ep : string) (l : list (nat * string)) :
  Forall (fun p => (p.1 < t)%nat) l ->
  list_find (fun p => p.1 = t) (l ++ [(t, ep)]) = Some (length l, (t, ep)).
Proof.
  intros Hl. rewrite list_find_app_r.
  - simpl. rewrite decide_True by reflexivity. reflexivity.
  - apply list_find_None. eapply Forall_impl; [exact Hl|].
    simpl. intros p Hp. lia.
Qed.

(** X5. The reconnect cycle. When a socket that is not yet closed gets
    closed and the timer [onclose] arms expires, [connect] opens a socket
    to the same endpoint; once that one is established the service is
    connected again, no reconnect timer is stored, the pending timers
    are the ones from before and the listeners are all still there. *)
Theorem reconnect_cycle (w : Api.World Subs) (i : nat) (s : Api.Socket) :
  Api.sockets w !! i = Some s ->
  Api.readyState s ≠ Api.CLOSED ->
  Api.timers_bounded w ->
  exists w',
    Api.run call [Api.CloseEvent i; Api.TimerEvent (Api.next_timer w);
                  Api.OpenEvent (length (Api.sockets w))] w = Some w'
    /\ Api.ws w' = Some (length (Api.sockets w))
    /\ Api.sockets w' !! length (Api.sockets w)
       = Some {| Api.endpoint := Api.endpoint s; Api.readyState := Api.OPEN |}
    /\ Api.sockets w' !! i
       = Some {| Api.endpoint := Api.endpoint s; Api.readyState := Api.CLOSED |}
    /\ Api.reconnectTimeout w' = None
    /\ Api.timers w' = Api.timers w
    /\ Api.listeners w' = Api.listeners w.
Proof.
  intros Hs Hr Hb. unfold Api.timers_bounded in Hb.
  pose proof (lookup_lt_Some _ _ _ Hs) as Hi.
  destruct s as [ep r]. simpl in Hr. simpl Api.endpoint.
  set (t := Api.next_timer w) in *.
  set (n := length (Api.sockets w)) in *.
  set (w1 := Api.onclose ep (Api.set_readyState i Api.CLOSED w)).
  set (w2 := Api.connect ep (Api.clearTimeout t w1)).
  set (w3 := Api.onopen (Api.set_readyState n Api.OPEN w2)).
  assert (H1 : Api.exec call (Api.CloseEvent i) w = Some w1).
  { simpl. rewrite Hs. now destruct r. }
  assert (H2 : Api.exec call (Api.TimerEvent t) w1 = Some w2).
  { simpl. fold t. now rewrite (list_find_bounded t ep _ Hb). }
  assert (Hlen : length (alter (fun s => {| Api.endpoint := Api.endpoint s;
                                            Api.readyState := Api.CLOSED |})
                           i (Api.sockets w)) = n)
    by apply length_alter.
  assert (Hsock2 : Api.sockets w2
            = alter (fun s => {| Api.endpoint := Api.endpoint s;
                                 Api.readyState := Api.CLOSED |})
                    i (Api.sockets w)
              ++ [{| Api.endpoint := ep; Api.readyState := Api.CONNECTING |}])
    by reflexivity.
  assert (H3 : Api.exec call (Api.OpenEvent n) w2 = Some w3).
  { cbn [Api.exec]. rewrite Hsock2.
    rewrite lookup_app_r by lia. now rewrite Hlen, Nat.sub_diag. }
  exists w3. cbn [Api.run]. rewrite H1, H2, H3.
  split; [reflexivity|].
  assert (Hsock3 : Api.sockets w3
            = alter (fun s => {| Api.endpoint := Api.endpoint s;
                                 Api.readyState := Api.OPEN |}) n (Api.sockets w2))
    by reflexivity.
  assert (Htim : Api.timers w3
            = filter (fun p => p.1 ≠ t)
                (filter (fun p => p.1 ≠ t) (Api.timers w ++ [(t, ep)])))
    by reflexivity.
  split; [simpl; now rewrite Hlen|].
  split.
  { rewrite Hsock3, Hsock2.
    rewrite alter_app_r_alt by lia. rewrite Hlen, Nat.sub_diag.
    rewrite lookup_app_r by lia. now rewrite Hlen, Nat.sub_diag. }
  split.
  { rewrite Hsock3, Hsock2.
    rewrite alter_app_r_alt by lia.
    rewrite lookup_app_l by lia.
    now rewrite list_lookup_alter_eq, Hs. }
  split; [reflexivity|].
  split; [|reflexivity].
  rewrite Htim, filter_app, (filter_bounded _ _ Hb).
  rewrite filter_cons, decide_False by (intros Hne; now apply Hne).
  rewrite filter_nil, app_nil_r. apply (filter_bounded _ _ Hb).
Qed.

End Reconnect.

Section ReconnectInvariant.
Context `{Builtins}.
Context {Subs : Type} (call : nat -> json -> Subs -> Api.completion Subs).

(** Timer identifiers are handed out in increasing order, so the pending
    ones stay below the counter: in every state the service can reach. *)
Lemma timers_bounded_exec (st : Api.step) (w w' : Api.World Subs) :
  Api.timers_bounded w -> Api.exec call st w = Some w' -> Api.timers_bounded w'.
Proof.
  unfold Api.timers_bounded. intros Hb Hexec.
  assert (Hfilter : forall t,
            Forall (fun p => (p.1 < Api.next_timer w)%nat)
                   (filter (fun p => p.1 ≠ t) (Api.timers w))).
  { intros t. apply Forall_forall. intros p [_ Hp]%list_elem_of_filter.
    rewrite Forall_forall in Hb. now apply Hb. }
  destruct st as [ep| |l|l|i|i data|i|i|t]; simpl in Hexec.
  - now injection Hexec as <-.
  - injection Hexec as <-. rewrite disconnect_timers.
    assert (Hn : Api.next_timer (Api.disconnect w) = Api.next_timer w).
    { unfold Api.disconnect.
      destruct (Api.reconnectTimeout w) as [t|]; simpl;
        destruct (Api.ws w) as [i|]; simpl; try reflexivity.
      - now destruct (WebSocket_close_frame i
              (Api.set_reconnectTimeout None (Api.clearTimeout t w)))
          as (_ & _ & _ & _ & ->).
      - now destruct (WebSocket_close_frame i w) as (_ & _ & _ & _ & ->). }
    rewrite Hn. destruct (Api.reconnectTimeout w); [apply Hfilter | exact Hb].
  - injection Hexec as <-. unfold Api.subscribe.
    now destruct (decide (l ∈ Api.listeners w)).
  - now injection Hexec as <-.
  - destruct (Api.sockets w !! i) as [[ep []]|]; try discriminate.
    injection Hexec as <-. unfold Api.onopen. simpl.
    destruct (Api.reconnectTimeout w); simpl; [apply Hfilter | exact Hb].
  - destruct (Api.sockets w !! i) as [[ep []]|]; try discriminate.
    injection Hexec as <-.
    destruct (onmessage_frame call data w) as (_ & _ & _ & _ & -> & ->).
    exact Hb.
  - destruct (Api.sockets w !! i) as [[ep []]|]; try discriminate;
      now injection Hexec as <-.
  - assert (Hnew : forall ep,
              Forall (fun p => (p.1 < S (Api.next_timer w))%nat)
                     (Api.timers w ++ [(Api.next_timer w, ep)])).
    { intros ep. apply Forall_app. split.
      - eapply Forall_impl; [exact Hb|]. simpl. intros p Hp. lia.
      - repeat constructor. }
    destruct (Api.sockets w !! i) as [[ep []]|]; try discriminate;
      injection Hexec as <-; apply Hnew.
  - destruct (list_find _ (Api.timers w)) as [[k [t' ep]]|]; try discriminate.
    injection Hexec as <-. apply Hfilter.
Qed.

Lemma timers_bounded_run (sts : list Api.step) (s : Subs) (w' : Api.World Subs) :
  Api.run call sts (Api.initial s) = Some w' -> Api.timers_bounded w'.
Proof.
  assert (Hgen : forall w, Api.timers_bounded w ->
            Api.run call sts w = Some w' -> Api.timers_bounded w').
  { induction sts as [|st sts IH]; intros w Hb Hrun; simpl in Hrun.
    - now injection Hrun as <-.
    - destruct (Api.exec call st w) as [w1|] eqn:Hexec; [|discriminate].
      eapply IH; [|exact Hrun]. eapply timers_bounded_exec; eassumption. }
  apply Hgen. constructor.
Qed.

End ReconnectInvariant.

(** ** Delivery: a listener that throws, a socket that was replaced *)

Section DeliveryMore.
Context `{Builtins}.

Lemma forEach_throwing_before (bad : nat) (before : list nat) (rest : list nat)
    (v : json) (log : list (nat * json)) :
  bad ∉ before ->
  Api.forEach (Api.throwing bad) (before ++ rest) v log
  = Api.forEach (Api.throwing bad) rest v (log ++ map (fun l => (l, v)) before).
Proof.
  revert log. induction before as [|l ls IH]; intros log Hbad; simpl.
  - now rewrite app_nil_r.
  - unfold Api.throwing at 1.
    rewrite decide_False
      by (intros ->; apply Hbad, list_elem_of_here).
    rewrite IH by (intros Hin; apply Hbad; now apply list_elem_of_further).
    now rewrite <- app_assoc.
Qed.

(** X6. When a listener throws, [forEach] stops there: the listeners
    subscribed before it have been called, the ones subscribed after it
    are not called for that message, the exception ends in the [catch]
    clause (reported as a parsing error) and does not leave [onmessage]. *)
Theorem throwing_listener_starves_later
    (bad : nat) (before after : list nat) (data : string) (v : json)
    (w : Api.World (list (nat * json))) :
  JSON_parse data = Some v ->
  Api.listeners w = before ++ bad :: after ->
  bad ∉ before ->
  Api.onmessage (Api.throwing bad) data w
  = Api.Normal
      (Api.console_log "Error parsing WebSocket message:"
         (Api.set_subscribers
            (Api.subscribers w ++ map (fun l => (l, v)) before) w)).
Proof.
  intros Hparse Hls Hbad.
  unfold Api.onmessage, Api.onmessage_try. rewrite Hparse, Hls.
  rewrite forEach_throwing_before by exact Hbad. simpl.
  unfold Api.throwing at 1. rewrite decide_True by reflexivity.
  reflexivity.
Qed.

(** X7. [connect] does not close the socket it replaces. A socket that
    was open before a second [connect] is open after it, though [this.ws]
    no longer refers to it, and its messages are still handed to every
    listener. *)
Theorem connect_leaves_old_socket_delivering
    (w : Api.World (list (nat * json))) (i : nat) (old ep data : string)
    (v : json) :
  Api.sockets w !! i = Some {| Api.endpoint := old; Api.readyState := Api.OPEN |} ->
  JSON_parse data = Some v ->
  Api.ws (Api.connect ep w) ≠ Some i
  /\ Api.sockets (Api.connect ep w) !! i
     = Some {| Api.endpoint := old; Api.readyState := Api.OPEN |}
  /\ Api.exec Api.recording (Api.MessageEvent i data) (Api.connect ep w)
     = Some (Api.set_subscribers
               (Api.subscribers w ++ map (fun l => (l, v)) (Api.listeners w))
               (Api.connect ep w)).
Proof.
  intros Hs Hparse.
  pose proof (lookup_lt_Some _ _ _ Hs) as Hi.
  assert (Hsock : Api.sockets (Api.connect ep w) !! i
            = Some {| Api.endpoint := old; Api.readyState := Api.OPEN |}).
  { simpl. now rewrite lookup_app_l. }
  split; [|split].
  - simpl. intros E. injection E as E. lia.
  - exact Hsock.
  - cbn [Api.exec]. rewrite Hsock.
    unfold Api.onmessage, Api.onmessage_try.
    rewrite Hparse, forEach_recording. reflexivity.
Qed.

End DeliveryMore.

(** ** Witnesses for the service *)

Lemma registry_survives_witness :
  Api.listeners Samples.waiting = Api.listeners Samples.two_recorders.
Proof.
  apply (@registry_survives_reconnects Samples.runtime _ Api.recording
           [Api.Connect "/ws/instruments"; Api.OpenEvent 0; Api.CloseEvent 0]
           Samples.two_recorders Samples.waiting).
  - repeat constructor.
  - reflexivity.
Defined.

Lemma registry_without_duplicates_witness :
  NoDup (Api.listeners (Api.connect "/ws/instruments" Samples.two_recorders)).
Proof.
  apply (@registry_without_duplicates Samples.runtime _ Api.recording
           [Api.Subscribe 1; Api.Connect "/ws/instruments"]
           Samples.two_recorders
           (Api.connect "/ws/instruments" Samples.two_recorders)).
  - apply (bool_decide_unpack _). vm_compute. exact I.
  - reflexivity.
Defined.

Lemma subscribe_unsubscribe_witness :
  Api.unsubscribe 5 (Api.subscribe 5 Samples.two_recorders)
  = Samples.two_recorders.
Proof.
  apply (proj1 (subscribe_unsubscribe_round_trip 5 Samples.two_recorders)).
  apply (bool_decide_unpack _). vm_compute. exact I.
Defined.

Lemma disconnect_while_waiting_witness :
  @Api.exec Samples.runtime _ Api.recording (Api.TimerEvent 1)
    (Api.disconnect Samples.waiting) = None.
Proof.
  apply (@disconnect_while_waiting_is_final Samples.runtime _ Api.recording
           Samples.waiting (Api.TimerEvent 1)).
  - repeat constructor.
  - repeat constructor.
  - reflexivity.
Defined.

Lemma reconnect_cycle_witness :
  exists w',
    @Api.run Samples.runtime _ Api.recording
      [Api.CloseEvent 0; Api.TimerEvent (Api.next_timer Samples.connected);
       Api.OpenEvent (length (Api.sockets Samples.connected))]
      Samples.connected = Some w'
    /\ Api.ws w' = Some (length (Api.sockets Samples.connected))
    /\ Api.sockets w' !! length (Api.sockets Samples.connected)
       = Some {| Api.endpoint := "/ws/instruments"; Api.readyState := Api.OPEN |}
    /\ Api.sockets w' !! 0%nat
       = Some {| Api.endpoint := "/ws/instruments"; Api.readyState := Api.CLOSED |}
    /\ Api.reconnectTimeout w' = None
    /\ Api.timers w' = Api.timers Samples.connected
    /\ Api.listeners w' = Api.listeners Samples.connected.
Proof.
  apply (@reconnect_cycle Samples.runtime _ Api.recording Samples.connected 0
           {| Api.endpoint := "/ws/instruments"; Api.readyState := Api.OPEN |}).
  - reflexivity.
  - discriminate.
  - constructor.
Defined.

Lemma throwing_listener_witness :
  @Api.onmessage Samples.runtime _ (Api.throwing 1) "[]" Samples.two_recorders
  = Api.Normal
      (Api.console_log "Error parsing WebSocket message:"
         (Api.set_subscribers
            (Api.subscribers Samples.two_recorders
               ++ map (fun l => (l, JArray [])) [0%nat])
            Samples.two_recorders)).
Proof.
  apply (@throwing_listener_starves_later Samples.runtime 1 [0%nat] []
           "[]" (JArray []) Samples.two_recorders).
  - reflexivity.
  - reflexivity.
  - apply (bool_decide_unpack _). vm_compute. exact I.
Defined.

Lemma connect_leaves_old_socket_witness :
  Api.ws (Api.connect "/ws/instruments" Samples.connected) ≠ Some 0%nat
  /\ Api.sockets (Api.connect "/ws/instruments" Samples.connected) !! 0%nat
     = Some {| Api.endpoint := "/ws/instruments"; Api.readyState := Api.OPEN |}
  /\ @Api.exec Samples.runtime _ Api.recording (Api.MessageEvent 0 "[]")
       (Api.connect "/ws/instruments" Samples.connected)
     = Some (Api.set_subscribers
               (Api.subscribers Samples.connected
                  ++ map (fun l => (l, JArray [])) (Api.listeners Samples.connected))
               (Api.connect "/ws/instruments" Samples.connected)).
Proof.
  apply (@connect_leaves_old_socket_delivering Samples.runtime
           Samples.connected 0 "/ws/instruments" "/ws/instruments" "[]"
           (JArray [])).
  - reflexivity.
  - reflexivity.
Defined.

Lemma unsubscribed_never_called_witness :
  (0%nat ∉ Api.listeners
     (Api.outcome
        (@Api.onmessage Samples.runtime _ Api.recording "[]"
           (Api.unsubscribe 0 Samples.connected))))
  /\ forall d,
       (0%nat, d) ∈ Api.subscribers
          (Api.outcome
             (@Api.onmessage Samples.runtime _ Api.recording "[]"
                (Api.unsubscribe 0 Samples.connected))) ->
       (0%nat, d) ∈ Api.subscribers (Api.unsubscribe 0 Samples.connected).
Proof.
  apply (@unsubscribed_never_called Samples.runtime 0
           [Api.MessageEvent 0 "[]"]).
  - apply not_elem_of_cons. split; [discriminate | apply not_elem_of_nil].
  - apply (bool_decide_unpack _). vm_compute. exact I.
  - reflexivity.
Defined.

Lemma disconnect_clears_timer_witness :
  (1%nat, "/ws/instruments") ∉ Api.timers (Api.disconnect Samples.waiting).
Proof.
  apply (proj2 (disconnect_clears_timer Samples.waiting) 1%nat "/ws/instruments").
  reflexivity.
Defined.

Lemma disconnect_live_socket_rearms_witness :
  exists w',
    @Api.exec Samples.runtime _ Api.recording (Api.CloseEvent 0)
      (Api.disconnect Samples.connected) = Some w'
    /\ Api.reconnectTimeout w' = Some (Api.next_timer Samples.connected)
    /\ (Api.next_timer Samples.connected, "/ws/instruments") ∈ Api.timers w'.
Proof.
  apply (@disconnect_live_socket_rearms Samples.runtime _ Api.recording
           Samples.connected 0
           {| Api.endpoint := "/ws/instruments"; Api.readyState := Api.OPEN |}).
  - reflexivity.
  - reflexivity.
  - right. reflexivity.
Defined.

(** ** The asset page's data effect *)

Section AssetLoaderFacts.
Import AssetLoader.
Context `{PageMarkup}.

Lemma live_step (ev : event) (st : State) :
  live (step ev st)
  = match ev with
    | Effect _ => Some (effects st)
    | Cleanup => None
    | _ => live st
    end
  /\ effects (step ev st)
     = match ev with
       | Effect _ => S (effects st)
       | _ => effects st
       end.
Proof.
  destruct ev as [sym| |now g r|r|]; simpl; try (split; reflexivity).
  - unfold tick. destruct (live st) eqn:E; [|now rewrite E].
    split; [exact E | reflexivity].
  - unfold loadData_settled.
    destruct (decide (live st = Some g)); [|split; reflexivity].
    destruct r; split; reflexivity.
  - destruct r; split; reflexivity.
Qed.

(** An instance that is no longer the running one never is again. *)
Lemma superseded_stays_superseded (g : nat) (evs : list event) (st : State) :
  (g < effects st)%nat -> live st ≠ Some g ->
  (g < effects (run evs st))%nat /\ live (run evs st) ≠ Some g.
Proof.
  revert st. induction evs as [|ev evs IH]; intros st Hg Hl; [now split|].
  change (run (ev :: evs) st) with (run evs (step ev st)).
  destruct (live_step ev st) as [Hlive Heff].
  apply IH.
  - rewrite Heff. destruct ev; lia.
  - rewrite Hlive. destruct ev; try exact Hl; try discriminate.
    intros E. injection E as E. lia.
Qed.

Lemma live_bounded_run (evs : list event) (st : State) :
  live_bounded st -> live_bounded (run evs st).
Proof.
  revert st. induction evs as [|ev evs IH]; intros st Hb; [exact Hb|].
  change (run (ev :: evs) st) with (run evs (step ev st)).
  apply IH. intros g. destruct (live_step ev st) as [-> ->].
  destruct ev; try (intros E; apply Hb in E; lia); try discriminate.
  intros E. injection E as <-. lia.
Qed.

(** X8. Once the symbol has changed or the page was left, the answer to
    a [loadData] request of the earlier effect instance changes nothing,
    however late it arrives and whatever happened meanwhile: no data of
    the previous asset, no error, no counter, no flag is written. The
    answer to [loadConfig] has no such guard: whenever it arrives it
    replaces [config], and nothing but [config]. *)
Theorem superseded_response_is_dropped
    (st : State) (g : nat) (first : event) (evs : list event)
    (now : nat) (response : option json) :
  live_bounded st ->
  live st = Some g ->
  (first = Cleanup \/ exists sym, first = Effect sym) ->
  let st' := run (first :: evs) st in
  loadData_settled now g response st' = st'
  /\ (forall c,
        loadConfig_settled (Some c) st'
        = {| symbol := symbol st'; data := data st'; config := c;
             loading := loading st'; error := error st';
             lastUpdate := lastUpdate st'; updateCount := updateCount st';
             isUpdating := isUpdating st'; live := live st';
             effects := effects st' |})
  /\ loadConfig_settled None st' = st'.
Proof.
  intros Hb Hl Hfirst. cbv zeta. split; [|split; reflexivity].
  change (run (first :: evs) st) with (run evs (step first st)).
  pose proof (Hb g Hl) as Hg.
  destruct (superseded_stays_superseded g evs (step first st)) as [_ Hne].
  - destruct (live_step first st) as [_ ->]. destruct first; lia.
  - destruct (live_step first st) as [-> _].
    destruct Hfirst as [-> | [sym ->]]; [discriminate|].
    intros E. injection E as E. lia.
  - unfold loadData_settled. now rewrite decide_False.
Qed.

Lemma loader_invariant (evs : list event) (st : State) :
  error_known st /\ settled_once st ->
  error_known (run evs st) /\ settled_once (run evs st).
Proof.
  revert st. induction evs as [|ev evs IH]; intros st Hinv; [exact Hinv|].
  change (run (ev :: evs) st) with (run evs (step ev st)).
  apply IH. destruct Hinv as [He Hs]. unfold error_known, settled_once in *.
  destruct ev as [sym| |now g r|r|]; simpl.
  - split; [now left | discriminate].
  - unfold tick. destruct (live st); simpl; auto.
  - unfold loadData_settled.
    destruct (decide (live st = Some g)); [|auto].
    destruct r; simpl.
    + split; [now left | intros _; right; lia].
    + split; [now right | intros _; left; discriminate].
  - destruct r; simpl; auto.
  - auto.
Qed.

(** X9. From the first render on, the text "no data found" is shown only
    after a successful response was applied whose body is falsy (a
    [null] answer): without any answer the page shows the spinner, and
    after a failure the error text. *)
Theorem not_found_only_after_null_answer (sym : option string) (evs : list event) :
  render (run evs (initial sym)) = Alert "Данные не найдены" ->
  (0 < updateCount (run evs (initial sym)))%nat
  /\ json_truthy (data (run evs (initial sym))) = false.
Proof.
  destruct (loader_invariant evs (initial sym)) as [He Hs].
  { split; [now left | discriminate]. }
  set (st := run evs (initial sym)) in *.
  unfold render, page, settled_once in *.
  destruct (loading st); [discriminate|].
  destruct He as [E | E]; rewrite E in *; simpl.
  - destruct (json_truthy (data st)); simpl.
    + destruct (page_markup st); discriminate.
    + intros _. split; [|reflexivity].
      destruct (Hs eq_refl) as [Hc | Hc]; [congruence | exact Hc].
  - intros Hview. exfalso. vm_compute in Hview. discriminate Hview.
Qed.

(** X10. A failed poll keeps the data already loaded but replaces the
    page by the error alert; the next successful poll of the same
    instance, with a truthy body, stores the new data, clears the error,
    counts one more update, and the component is back at building the
    page from the new state (which shows it, or throws on a body the page
    cannot be built from). *)
Theorem failed_poll_hides_page_until_next_success
    (st : State) (g now now' : nat) (d : json) :
  live st = Some g ->
  json_truthy d = true ->
  let failed := loadData_settled now g None st in
  let recovered := loadData_settled now' g (Some d) failed in
  data failed = data st
  /\ render failed = Alert "Ошибка загрузки данных"
  /\ data recovered = d
  /\ error recovered = None
  /\ loading recovered = false
  /\ render recovered = page recovered
  /\ updateCount recovered = S (updateCount st)
  /\ lastUpdate recovered = Some now'.
Proof.
  intros Hl Hd. cbv zeta. unfold loadData_settled.
  rewrite decide_True by exact Hl. simpl.
  rewrite decide_True by exact Hl. simpl.
  unfold render. simpl. rewrite Hd. repeat split.
Qed.

End AssetLoaderFacts.

Lemma superseded_response_witness :
  let st' := AssetLoader.run [AssetLoader.Effect (Some "BTC"); AssetLoader.Tick]
               Samples.asset_page in
  AssetLoader.loadData_settled 7 0 (Some Samples.eth_body) st' = st'
  /\ (forall c,
        AssetLoader.loadConfig_settled (Some c) st'
        = {| AssetLoader.symbol := AssetLoader.symbol st';
             AssetLoader.data := AssetLoader.data st';
             AssetLoader.config := c;
             AssetLoader.loading := AssetLoader.loading st';
             AssetLoader.error := AssetLoader.error st';
             AssetLoader.lastUpdate := AssetLoader.lastUpdate st';
             AssetLoader.updateCount := AssetLoader.updateCount st';
             AssetLoader.isUpdating := AssetLoader.isUpdating st';
             AssetLoader.live := AssetLoader.live st';
             AssetLoader.effects := AssetLoader.effects st' |})
  /\ AssetLoader.loadConfig_settled None st' = st'.
Proof.
  apply (superseded_response_is_dropped Samples.asset_page 0
           (AssetLoader.Effect (Some "BTC")) [AssetLoader.Tick] 7
           (Some Samples.eth_body)).
  - intros g E. injection E as <-. vm_compute. lia.
  - reflexivity.
  - right. eexists. reflexivity.
Defined.

Lemma not_found_witness :
  (0 < AssetLoader.updateCount
         (AssetLoader.run
            [AssetLoader.Effect (Some "ETH"); AssetLoader.Settled 3 0 (Some JNull)]
            (AssetLoader.initial (Some "ETH"))))%nat
  /\ json_truthy
       (AssetLoader.data
          (AssetLoader.run
             [AssetLoader.Effect (Some "ETH"); AssetLoader.Settled 3 0 (Some JNull)]
             (AssetLoader.initial (Some "ETH")))) = false.
Proof.
  apply (@not_found_only_after_null_answer Samples.page_outline (Some "ETH")
           [AssetLoader.Effect (Some "ETH"); AssetLoader.Settled 3 0 (Some JNull)]).
  reflexivity.
Defined.

Lemma failed_poll_witness :
  let failed := AssetLoader.loadData_settled 1 0 None Samples.asset_page in
  let recovered :=
    AssetLoader.loadData_settled 2 0 (Some Samples.eth_body) failed in
  AssetLoader.data failed = AssetLoader.data Samples.asset_page
  /\ @AssetLoader.render Samples.page_outline failed
     = AssetLoader.Alert "Ошибка загрузки данных"
  /\ AssetLoader.data recovered = Samples.eth_body
  /\ AssetLoader.error recovered = None
  /\ AssetLoader.loading recovered = false
  /\ @AssetLoader.render Samples.page_outline recovered
     = @AssetLoader.page Samples.page_outline recovered
  /\ AssetLoader.updateCount recovered
     = S (AssetLoader.updateCount Samples.asset_page)
  /\ AssetLoader.lastUpdate recovered = Some 2%nat.
Proof.
  apply (@failed_poll_hides_page_until_next_success Samples.page_outline
           Samples.asset_page 0 1 2 Samples.eth_body).
  - reflexivity.
  - reflexivity.
Defined.

(** With the stand-in markup the recovered page is shown for that body,
    and the same poll with the body [{}] makes the render throw. *)
Example recovered_page_or_throw :
  @AssetLoader.render Samples.page_outline
     (AssetLoader.loadData_settled 2 0 (Some Samples.eth_body)
        (AssetLoader.loadData_settled 1 0 None Samples.asset_page))
  = AssetLoader.Page "page with 0 futures"
  /\ @AssetLoader.render Samples.page_outline
       (AssetLoader.loadData_settled 2 0 (Some (JObject []))
          (AssetLoader.loadData_settled 1 0 None Samples.asset_page))
     = AssetLoader.Throws.
Proof. split; vm_compute; reflexivity. Qed.

(** ** What the dashboard shows *)

Section DashboardView.
Context {rows_markup : Dashboard.RowMarkup} {float : Binary64}.

(** The table throws exactly when the markup of some row throws; the
    empty array always gives the empty table with its note. *)
Lemma table_outcome (rows : list json) :
  (Dashboard.table rows = Dashboard.Throws
   <-> Exists (fun row => Dashboard.row_markup row = None) rows)
  /\ (forall built note,
        Dashboard.table rows = Dashboard.Table built note ->
        Forall2 (fun row b => Dashboard.row_markup row = Some b) rows built
        /\ note = bool_decide (length rows = 0%nat))
  /\ Dashboard.table [] = Dashboard.Table [] true.
Proof.
  unfold Dashboard.table. split; [|split; [|reflexivity]].
  - rewrite <- mapM_None.
    destruct (mapM Dashboard.row_markup rows); split;
      try discriminate; reflexivity.
  - intros built note.
    destruct (mapM Dashboard.row_markup rows) as [k|] eqn:E; [|discriminate].
    intros Ht. injection Ht as -> <-. split; [|reflexivity].
    now apply mapM_Some.
Qed.

(** X11. A valid stream message clears an error and hands exactly the
    delivered rows to the table, but never lifts the spinner: as long as
    the first HTTP load has not settled the dashboard keeps showing the
    spinner, whatever the stream delivers. After a failed HTTP load
    (which shows the error alert) the next array on the stream replaces
    the alert by the table of the delivered rows. That table is built
    row by row: the render throws exactly when the markup of one of the
    delivered rows throws, and an empty array gives the empty table with
    the "no data" note. *)
Theorem stream_shows_table_once_loaded
    (now now' : nat) (items : list json) (st : Dashboard.State) :
  Dashboard.render (Dashboard.listener now (JArray items) st)
  = (if Dashboard.loading st then Dashboard.Spinner
     else Dashboard.table items)
  /\ Dashboard.render (Dashboard.loadData now' None st)
     = Dashboard.Alert "Ошибка загрузки данных"
  /\ Dashboard.render
       (Dashboard.listener now (JArray items) (Dashboard.loadData now' None st))
     = Dashboard.table items
  /\ (Dashboard.table items = Dashboard.Throws
      <-> Exists (fun row => Dashboard.row_markup row = None) items)
  /\ Dashboard.table [] = Dashboard.Table [] true.
Proof.
  split; [|split; [|split; [|split]]].
  - unfold Dashboard.render, Dashboard.listener. simpl.
    now destruct (Dashboard.loading st).
  - reflexivity.
  - reflexivity.
  - apply table_outcome.
  - reflexivity.
Qed.

(** X12. The HTTP answer is applied whenever it arrives: an array
    replaces the rows the stream has delivered meanwhile (the snapshot
    that arrives last wins, not the newer one) and the table is built
    from it; anything else than an array sets the error and so hides the
    table the stream had already filled, whose rows are kept. *)
Theorem late_http_answer_overrides_stream
    (now now' : nat) (streamed : list json) (body : json) (st : Dashboard.State) :
  let st' := Dashboard.loadData now' (Some body)
               (Dashboard.listener now (JArray streamed) st) in
  match as_array body with
  | Some rows =>
      Dashboard.instruments st' = rows
      /\ Dashboard.render st' = Dashboard.table rows
  | None =>
      Dashboard.instruments st' = streamed
      /\ Dashboard.render st'
         = Dashboard.Alert "Получены некорректные данные с сервера"
  end.
Proof.
  cbv zeta.
  unfold Dashboard.render, Dashboard.listener, Dashboard.loadData. simpl.
  destruct (as_array body); simpl; split; reflexivity.
Qed.

Lemma num_lt_Fin_false (p q : Q) : num_lt (Fin p) (Fin q) = false <-> q <= p.
Proof.
  rewrite <- not_true_iff_false, num_lt_Fin. split.
  - apply Qnot_lt_le.
  - intros Hle Hlt. exact (Qlt_not_le _ _ Hlt Hle).
Qed.

(** X13. The colour of the spread chip: red exactly below -0.5, amber
    from -0.5 up to but excluding 0, green from 0 on; a [NaN] spread is
    green as well. *)
Theorem getSpreadColor_bands (q : Q) :
  (Dashboard.getSpreadColor (Fin q) = Dashboard.error_color <-> q < -1 # 2)
  /\ (Dashboard.getSpreadColor (Fin q) = Dashboard.warning
      <-> -1 # 2 <= q /\ q < 0)
  /\ (Dashboard.getSpreadColor (Fin q) = Dashboard.success <-> 0 <= q)
  /\ Dashboard.getSpreadColor NaN = Dashboard.success.
Proof.
  unfold Dashboard.getSpreadColor.
  destruct (num_lt (Fin q) (Fin (-1 # 2))) eqn:E1.
  - apply num_lt_Fin in E1.
    assert (q < 0) by (eapply Qlt_trans; [exact E1 | reflexivity]).
    repeat split; try discriminate; try tauto.
    + intros [Hle _]. exfalso. exact (Qlt_not_le _ _ E1 Hle).
    + intros Hle. exfalso. exact (Qlt_not_le _ _ H Hle).
  - apply num_lt_Fin_false in E1.
    destruct (num_lt (Fin q) (Fin 0)) eqn:E2.
    + apply num_lt_Fin in E2.
      repeat split; try discriminate; try tauto.
      * intros Hlt. exfalso. exact (Qlt_not_le _ _ Hlt E1).
      * intros Hle. exfalso. exact (Qlt_not_le _ _ E2 Hle).
    + apply num_lt_Fin_false in E2.
      repeat split; try discriminate; try tauto.
      * intros Hlt. exfalso. exact (Qlt_not_le _ _ Hlt E1).
      * intros [_ Hlt]. exfalso. exact (Qlt_not_le _ _ Hlt E2).
Qed.

(** X14. The colour of the return-on-capital chip, [w] being the
    rounded product [threshold * 0.7] as JavaScript computes it: green
    exactly above the threshold, amber exactly above [w] up to the
    threshold, grey otherwise. There is an amber band only if [w] lies
    below the threshold. *)
Theorem getROCColor_bands (q t w : Q) :
  times (Fin t) (Fin double_0_7) = Fin w ->
  (Dashboard.getROCColor (Fin q) (Fin t) = Dashboard.success <-> t < q)
  /\ (Dashboard.getROCColor (Fin q) (Fin t) = Dashboard.warning
      <-> w < q /\ q <= t)
  /\ (Dashboard.getROCColor (Fin q) (Fin t) = Dashboard.default
      <-> q <= t /\ q <= w)
  /\ (Dashboard.getROCColor (Fin q) (Fin t) = Dashboard.warning -> w < t).
Proof.
  intros Hw. unfold Dashboard.getROCColor. rewrite Hw.
  destruct (num_lt (Fin t) (Fin q)) eqn:E1.
  - apply num_lt_Fin in E1.
    repeat split; try discriminate; try tauto.
    + intros [_ Hle]. exfalso. exact (Qlt_not_le _ _ E1 Hle).
    + intros [Hle _]. exfalso. exact (Qlt_not_le _ _ E1 Hle).
  - apply num_lt_Fin_false in E1.
    destruct (num_lt (Fin w) (Fin q)) eqn:E2.
    + apply num_lt_Fin in E2.
      repeat split; try discriminate; try tauto.
      * intros Hlt. exfalso. exact (Qlt_not_le _ _ Hlt E1).
      * intros [_ Hle]. exfalso. exact (Qlt_not_le _ _ E2 Hle).
      * intros _. eapply Qlt_le_trans; eassumption.
    + apply num_lt_Fin_false in E2.
      repeat split; try discriminate; try tauto.
      * intros Hlt. exfalso. exact (Qlt_not_le _ _ Hlt E1).
      * intros [Hlt _]. exfalso. exact (Qlt_not_le _ _ Hlt E2).
Qed.

End DashboardView.

(** ** Colours and the highlight on the asset page *)

Section AssetPageColours.
Import AssetPage.

(** X15. [getColor] is green exactly for positive numbers, red exactly
    for negative ones and grey for zero; a missing value, [null] and
    [NaN] are grey. *)
Theorem getColor_by_sign (q : Q) :
  (getColor (Num (Fin q)) = "#10b981" <-> 0 < q)
  /\ (getColor (Num (Fin q)) = "#ef4444" <-> q < 0)
  /\ (getColor (Num (Fin q)) = "#6b7280" <-> q == 0)
  /\ getColor Undefined = "#6b7280"
  /\ getColor Null = "#6b7280"
  /\ getColor (Num NaN) = "#6b7280".
Proof.
  unfold getColor.
  destruct (num_lt (Fin 0) (Fin q)) eqn:E1.
  - apply num_lt_Fin in E1.
    repeat split; try discriminate; try tauto.
    + intros Hlt. exfalso. exact (Qlt_irrefl _ (Qlt_trans _ _ _ E1 Hlt)).
    + intros E. rewrite E in E1. exfalso. exact (Qlt_irrefl _ E1).
  - apply num_lt_Fin_false in E1.
    destruct (num_lt (Fin q) (Fin 0)) eqn:E2.
    + apply num_lt_Fin in E2.
      repeat split; try discriminate; try tauto.
      * intros Hlt. exfalso. exact (Qlt_not_le _ _ Hlt E1).
      * intros E. rewrite E in E2. exfalso. exact (Qlt_irrefl _ E2).
    + apply num_lt_Fin_false in E2.
      repeat split; try discriminate; try tauto.
      * intros Hlt. exfalso. exact (Qlt_not_le _ _ Hlt E1).
      * intros Hlt. exfalso. exact (Qlt_not_le _ _ Hlt E2).
      * intros _. now apply Qle_antisym.
Qed.

(** X16. A highlighted row always has its net profit printed in green:
    the net profit of such a row is a number above zero (neither missing
    nor [null]), so its cell never reads ["N/A"] either. *)
Theorem highlighted_row_has_green_profit `{Builtins} (future : FutureData) :
  shouldHighlight future = true ->
  getColor (net_profit_current_fr future) = "#10b981"
  /\ exists n, net_profit_current_fr future = Num n
               /\ num_lt (Fin 0) n = true
               /\ formatPercentAlready (Num n) 2 <> "N/A".
Proof.
  unfold shouldHighlight. rewrite !andb_true_iff.
  intros (_ & H3). unfold gt in H3. unfold getColor.
  destruct (net_profit_current_fr future) as [| |n]; try discriminate H3.
  change (num_lt (Fin 0) n = true) in H3.
  rewrite H3. split; [reflexivity|].
  exists n. split; [reflexivity|]. split; [exact H3|].
  rewrite formatPercentAlready_Num. apply app_percent_not_NA.
Qed.

End AssetPageColours.

Lemma highlighted_row_witness :
  AssetPage.getColor (AssetPage.net_profit_current_fr Samples.highlighted_future)
  = "#10b981"
  /\ exists n,
       AssetPage.net_profit_current_fr Samples.highlighted_future = Num n
       /\ num_lt (Fin 0) n = true
       /\ @AssetPage.formatPercentAlready Samples.runtime (Num n) 2 <> "N/A".
Proof.
  apply (@highlighted_row_has_green_profit Samples.runtime
           Samples.highlighted_future).
  reflexivity.
Defined.

(** ** Editing and saving the settings *)

Section SettingsMore.
Context `{Builtins}.
Import Settings.

(** X17. Whatever is typed, [handleChange] never leaves [NaN] in the
    edited field (it holds a number that is not [NaN], or the text), and
    it leaves every other field of the configuration as it was. *)
Theorem handleChange_touches_one_field
    (field value : string) (st : State) (c : Config) :
  config st = Some c ->
  exists c',
    config (handleChange field value st) = Some c'
    /\ (c' !! field = Some (JString value) /\ isNaN (parseFloat value) = true
        \/ exists n, c' !! field = Some (JNumber n) /\ isNaN n = false)
    /\ forall other, other ≠ field -> c' !! other = c !! other.
Proof.
  intros Hc. unfold handleChange. rewrite Hc. simpl.
  eexists. split; [reflexivity|]. unfold Config in *. split.
  - rewrite lookup_insert_eq.
    destruct (isNaN (parseFloat value)) eqn:E; [left | right]; eauto.
  - intros other Hne. now rewrite lookup_insert_ne.
Qed.

(** X18. Edits compose as a user expects: typing twice into a field
    keeps the last text only, and edits of two different fields give the
    same state in either order. *)
Theorem edits_compose (f g u v : string) (st : State) :
  handleChange f v (handleChange f u st) = handleChange f v st
  /\ (f ≠ g ->
      handleChange f v (handleChange g u st)
      = handleChange g u (handleChange f v st)).
Proof.
  unfold handleChange.
  destruct (config st) as [c|] eqn:Hc; simpl; [|now rewrite Hc].
  unfold set_config, Config in *. simpl. split.
  - now rewrite insert_insert_eq.
  - intros Hne. now rewrite insert_insert_ne.
Qed.

(** X19. [handleSave] goes by how the request settles and by nothing
    else: a body with [success: false] that arrives with a successful
    HTTP status is announced as a success, with the server's message.
    Either way [saving] ends false and the edited configuration stays. *)
Theorem resolved_reply_is_shown_as_success
    (r : Reply) (st : State) (c : Config) :
  config st = Some c ->
  let st' := handleSave (fun _ => resolved_with r) st in
  message st'
  = Some (success, or_default (reply_message r) "Настройки успешно сохранены")
  /\ saving st' = false
  /\ config st' = Some c.
Proof.
  intros Hc. cbv zeta.
  unfold handleSave, handleSave_request, handleSave_start. rewrite Hc. simpl.
  repeat split; reflexivity.
Qed.

End SettingsMore.

Lemma handleChange_touches_witness :
  exists c',
    Settings.config
      (@Settings.handleChange Samples.runtime "leverage" "-1" Samples.editor)
    = Some c'
    /\ (c' !! "leverage" = Some (JString "-1")
        /\ isNaN (@parseFloat Samples.runtime "-1") = true
        \/ exists n, c' !! "leverage" = Some (JNumber n) /\ isNaN n = false)
    /\ forall other, other ≠ "leverage" ->
         c' !! other
         = (<["leverage" := JNumber (Fin 20)]>
              (<["capital_usdt" := JNumber (Fin 50000)]> ∅) : Settings.Config)
             !! other.
Proof.
  apply (@handleChange_touches_one_field Samples.runtime "leverage" "-1"
           Samples.editor).
  reflexivity.
Defined.

Lemma edits_compose_witness :
  @Settings.handleChange Samples.runtime "leverage" "-1"
    (@Settings.handleChange Samples.runtime "capital_usdt" "abc" Samples.editor)
  = @Settings.handleChange Samples.runtime "capital_usdt" "abc"
      (@Settings.handleChange Samples.runtime "leverage" "-1" Samples.editor).
Proof.
  apply (proj2 (@edits_compose Samples.runtime "leverage" "capital_usdt"
                  "abc" "-1" Samples.editor)).
  discriminate.
Defined.

Lemma resolved_reply_witness :
  Settings.message
    (Settings.handleSave
       (fun _ => Settings.resolved_with
                   {| Settings.reply_success := false;
                      Settings.reply_message := "leverage must be positive" |})
       Samples.editor)
  = Some (Settings.success,
          Settings.or_default "leverage must be positive"
            "Настройки успешно сохранены")
  /\ Settings.saving
       (Settings.handleSave
          (fun _ => Settings.resolved_with
                      {| Settings.reply_success := false;
                         Settings.reply_message := "leverage must be positive" |})
          Samples.editor) = false
  /\ Settings.config
       (Settings.handleSave
          (fun _ => Settings.resolved_with
                      {| Settings.reply_success := false;
                         Settings.reply_message := "leverage must be positive" |})
          Samples.editor)
     = Settings.config Samples.editor.
Proof.
  apply (resolved_reply_is_shown_as_success
           {| Settings.reply_success := false;
              Settings.reply_message := "leverage must be positive" |}
           Samples.editor).
  reflexivity.
Defined.

(** ** Falsy and [null] values in the table of the asset page *)

Section AssetPageEdges.
Context `{Builtins}.
Import AssetPage.

Lemma length_append (s1 s2 : string) :
  String.length (s1 +:+ s2) = (String.length s1 + String.length s2)%nat.
Proof. induction s1 as [|c s1 IH]; simpl; [reflexivity | now rewrite IH]. Qed.

(** X23. The days cell tests the value for truthiness, not for presence:
    it reads ["N/A"] exactly when the value is falsy, which for a number
    means zero (the day of expiration) or [NaN], like a missing value. *)
Theorem days_cell_NA_iff_falsy (future : FutureData) :
  (days_cell future = "N/A" <-> truthy (days_until_expiration future) = false)
  /\ (forall q, truthy (Num (Fin q)) = false <-> q == 0)
  /\ truthy Undefined = false
  /\ truthy Null = false
  /\ truthy (Num NaN) = false.
Proof.
  repeat split; try reflexivity.
  - unfold days_cell. destruct (truthy (days_until_expiration future));
      [|reflexivity].
    intros E. apply (f_equal String.length) in E.
    rewrite length_append in E. simpl in E. lia.
  - intros E. unfold days_cell. now rewrite E.
  - simpl. rewrite negb_false_iff. apply Qeq_bool_iff.
  - simpl. rewrite negb_false_iff. apply Qeq_bool_iff.
Qed.

(** X24. Which values read ["N/A"]. The two percent helpers print it
    exactly for a missing value and for [null]. The return-on-capital
    cells print it for a missing value only, and the USDT amount is left
    out for a missing value only: a [null] passes their [!== undefined]
    test and comes out as ["N/A%"] and [" ($N/A)"]. *)
Theorem NA_exactly_for_missing :
  (forall v decimals, formatPercentAlready v decimals = "N/A" <-> nullish v = true)
  /\ (forall v decimals, formatPercent v decimals = "N/A" <-> nullish v = true)
  /\ (forall v, roc_text v = "N/A" <-> v = Undefined)
  /\ (forall v, usdt_suffix v = "" <-> v = Undefined)
  /\ roc_text Null = "N/A%"
  /\ usdt_suffix Null = " ($N/A)".
Proof.
  split; [|split; [|split; [|split; [|split]]]]; try reflexivity.
  - intros [| |n] decimals; simpl; try tauto.
    split; [|discriminate].
    intros E. exfalso. revert E.
    change (formatPercentAlready (Num n) decimals <> "N/A").
    rewrite formatPercentAlready_Num. apply app_percent_not_NA.
  - intros [| |n] decimals; simpl; try tauto.
    split; [|discriminate].
    intros E. exfalso. revert E.
    change (formatPercent (Num n) decimals <> "N/A").
    rewrite formatPercent_Num. apply app_percent_not_NA.
  - intros [| |n]; unfold roc_text; simpl.
    + tauto.
    + split; discriminate.
    + split; [|discriminate]. intros E. exfalso.
      exact (app_percent_not_NA _ E).
  - intros [| |n]; unfold usdt_suffix; simpl.
    + tauto.
    + split; discriminate.
    + split; discriminate.
Qed.

End AssetPageEdges.

Lemma getROCColor_bands_witness :
  (@Dashboard.getROCColor Samples.binary64 (Fin 40) (Fin 50) = Dashboard.success
   <-> 50 < 40)
  /\ (@Dashboard.getROCColor Samples.binary64 (Fin 40) (Fin 50) = Dashboard.warning
      <-> 35 < 40 /\ 40 <= 50)
  /\ (@Dashboard.getROCColor Samples.binary64 (Fin 40) (Fin 50) = Dashboard.default
      <-> 40 <= 50 /\ 40 <= 35)
  /\ (@Dashboard.getROCColor Samples.binary64 (Fin 40) (Fin 50) = Dashboard.warning
      -> 35 < 50).
Proof.
  apply (@getROCColor_bands Samples.binary64 40 50 35).
  vm_compute. reflexivity.
Defined.

(** With binary64 rounding the literal [0.7] is [double_0_7], the call
    of the dashboard, threshold 50, has its amber band from 35, and at
    threshold 187 the rounded product is the double nearest 130.9, so
    that value is grey. *)
Example binary64_thresholds :
  Samples.round64 (7 # 10) = Qred double_0_7
  /\ @times Samples.binary64 (Fin 50) (Fin double_0_7) = Fin 35
  /\ @times Samples.binary64 (Fin 187) (Fin double_0_7)
     = Fin (Samples.round64 (1309 # 10))
  /\ @Dashboard.getROCColor Samples.binary64
       (Fin (Samples.round64 (1309 # 10))) (Fin 187) = Dashboard.default.
Proof. repeat split; vm_compute; reflexivity. Qed.

(** A dashboard that has loaded shows delivered rows, and throws on a
    delivered row that is [{}]. *)
Example dashboard_rows_or_throw :
  let loaded :=
    {| Dashboard.instruments := []; Dashboard.loading := false;
       Dashboard.error := None; Dashboard.lastUpdate := None |} in
  @Dashboard.render Samples.row_outline
     (Dashboard.listener 1%nat (JArray []) loaded)
  = Dashboard.Table [] true
  /\ @Dashboard.render Samples.row_outline
       (Dashboard.listener 1%nat (JArray [JObject []]) loaded)
     = Dashboard.Throws.
Proof. split; vm_compute; reflexivity. Qed.
